(** * EnhancedNewsCollector: a shallow embedding of news-collector-enhanced.py

    The module collects AI news from RSS feeds, scraped pages and a fixed
    fallback list, removes duplicates, scores, sorts and truncates.  Everything
    the module imports (feedparser, requests, BeautifulSoup, datetime.now,
    datetime.strptime, str.lower) is an input of the model, gathered in the
    record [env]; the module's own control flow and text processing are
    translated definition by definition.  [print] and [time.sleep] change
    nothing that the module computes and are left out.  Two statements of
    [get_ai_news] stand outside every handler and can raise: the cutoff
    [datetime.now() - timedelta(hours=hours_back)] (OverflowError) and the
    [encode] of a title in [_remove_duplicates] (UnicodeEncodeError). *)

From Stdlib Require Import ZArith NArith List Ascii String Bool Lia.
From Stdlib Require Import Sorting.Permutation Sorting.Sorted.
From stdpp Require Import gmap list.

Set Default Proof Using "Type".
Local Open Scope Z_scope.

(** ** Python [str]: a sequence of Unicode code points *)

Module PyStr.

Abbreviation str := (list N).

(** UTF-8 decoding, used to write the module's literals as they appear in
    the source file. *)
Fixpoint utf8_decode_bytes (fuel : nat) (bs : list N) : str :=
  match fuel with
  | O => []
  | S fuel' =>
    match bs with
    | [] => []
    | b0 :: r0 =>
      if (b0 <? 128)%N then b0 :: utf8_decode_bytes fuel' r0
      else match r0 with
      | [] => []
      | b1 :: r1 =>
        if (b0 <? 224)%N then
          ((b0 - 192) * 64 + (b1 - 128))%N :: utf8_decode_bytes fuel' r1
        else match r1 with
        | [] => []
        | b2 :: r2 =>
          if (b0 <? 240)%N then
            ((b0 - 224) * 4096 + (b1 - 128) * 64 + (b2 - 128))%N
              :: utf8_decode_bytes fuel' r2
          else match r2 with
          | [] => []
          | b3 :: r3 =>
            ((b0 - 240) * 262144 + (b1 - 128) * 4096 + (b2 - 128) * 64
               + (b3 - 128))%N :: utf8_decode_bytes fuel' r3
          end
        end
      end
    end
  end.

Definition bytes_of_string (s : string) : list N :=
  List.map N_of_ascii (list_ascii_of_string s).

Definition py (s : string) : str :=
  let bs := bytes_of_string s in utf8_decode_bytes (List.length bs) bs.

(** [s.encode()]: UTF-8 encoding, as a list of byte values.  A [str] may
    hold any code point up to U+10FFFF, surrogates included; [encode]
    raises UnicodeEncodeError, here [None], when it meets a surrogate
    (U+D800 to U+DFFF).  A number above U+10FFFF is the code point of no
    character and is refused as well. *)
Definition encodable (c : N) : bool :=
  ((c <? 55296) || (57343 <? c) && (c <=? 1114111))%N.

Definition encode_cp (c : N) : list Z :=
  let z := Z.of_N c in
  if z <? 128 then [z]
  else if z <? 2048 then [192 + Z.shiftr z 6; 128 + Z.land z 63]
  else if z <? 65536 then
    [224 + Z.shiftr z 12; 128 + Z.land (Z.shiftr z 6) 63; 128 + Z.land z 63]
  else
    [240 + Z.shiftr z 18; 128 + Z.land (Z.shiftr z 12) 63;
     128 + Z.land (Z.shiftr z 6) 63; 128 + Z.land z 63].

Fixpoint encode (s : str) : option (list Z) :=
  match s with
  | [] => Some []
  | c :: s' =>
    if encodable c then
      match encode s' with
      | Some bs => Some (encode_cp c ++ bs)%list
      | None => None
      end
    else None
  end.

(** [s.startswith(p)] *)
Fixpoint startswith (s p : str) {struct p} : bool :=
  match p with
  | [] => true
  | c :: p' =>
    match s with
    | [] => false
    | d :: s' => (c =? d)%N && startswith s' p'
    end
  end.

(** [sub in s] *)
Fixpoint contains (sub s : str) : bool :=
  startswith s sub ||
  match s with
  | [] => false
  | _ :: s' => contains sub s'
  end.

(** Truth value of a string: [bool(s)], false exactly for the empty string. *)
Definition truthy (s : str) : bool :=
  match s with [] => false | _ => true end.

(** [s.replace(old, new)] for a non-empty [old]: leftmost matches, not
    overlapping.  [skip] counts the characters of a match still to drop. *)
Fixpoint replace_from (old new : str) (skip : nat) (s : str) : str :=
  match s with
  | [] => []
  | c :: s' =>
    match skip with
    | S k => replace_from old new k s'
    | O =>
      if startswith s old
      then (new ++ replace_from old new (Nat.pred (List.length old)) s')%list
      else c :: replace_from old new O s'
    end
  end.

Definition replace (old new s : str) : str := replace_from old new O s.

(** [s.split(sep)] for a single-character separator. *)
Fixpoint split_on (sep : N) (cur : str) (s : str) : list str :=
  match s with
  | [] => [List.rev cur]
  | c :: s' =>
    if (c =? sep)%N then List.rev cur :: split_on sep [] s'
    else split_on sep (c :: cur) s'
  end.

Definition split (sep : N) (s : str) : list str := split_on sep [] s.

(** Comparison of strings, code point by code point, a proper prefix being
    smaller: the order of [<] on [str]. *)
Fixpoint compare (a b : str) : comparison :=
  match a, b with
  | [], [] => Eq
  | [], _ :: _ => Lt
  | _ :: _, [] => Gt
  | x :: a', y :: b' =>
    match (x ?= y)%N with
    | Eq => compare a' b'
    | c => c
    end
  end.

Definition leb (a b : str) : bool :=
  match compare a b with Gt => false | _ => true end.

(** The characters for which [str.isspace] holds; the class [\s] of [re]
    on [str] patterns is the same set. *)
Definition isspace (c : N) : bool :=
  ((9 <=? c) && (c <=? 13) || (28 <=? c) && (c <=? 32) || (c =? 133)
   || (c =? 160) || (c =? 5760) || (8192 <=? c) && (c <=? 8202)
   || (c =? 8232) || (c =? 8233) || (c =? 8239) || (c =? 8287)
   || (c =? 12288))%N.

Fixpoint lstrip (s : str) : str :=
  match s with
  | [] => []
  | c :: s' => if isspace c then lstrip s' else s
  end.
Definition rstrip (s : str) : str := List.rev (lstrip (List.rev s)).
Definition strip (s : str) : str := rstrip (lstrip s).

(** Decimal digits, zero padded to [width] (the [%0wd] of [isoformat]). *)
Fixpoint digits (width : nat) (n : Z) (acc : str) : str :=
  match width with
  | O => acc
  | S w => digits w (n / 10) (Z.to_N (48 + n mod 10) :: acc)
  end.

Definition zfill (width : nat) (n : Z) : str := digits width n [].

End PyStr.
Import PyStr.

(** ** hashlib.md5 (RFC 1321), on lists of byte values *)

Module MD5.

Definition mask32 (x : Z) : Z := Z.land x 4294967295.

Definition rotl32 (x : Z) (c : Z) : Z :=
  mask32 (Z.lor (Z.shiftl x c) (Z.shiftr (mask32 x) (32 - c))).

Definition shifts : list Z :=
  [7; 12; 17; 22; 7; 12; 17; 22; 7; 12; 17; 22; 7; 12; 17; 22;
   5; 9; 14; 20; 5; 9; 14; 20; 5; 9; 14; 20; 5; 9; 14; 20;
   4; 11; 16; 23; 4; 11; 16; 23; 4; 11; 16; 23; 4; 11; 16; 23;
   6; 10; 15; 21; 6; 10; 15; 21; 6; 10; 15; 21; 6; 10; 15; 21].

Definition sines : list Z :=
  [3614090360; 3905402710; 606105819; 3250441966;
   4118548399; 1200080426; 2821735955; 4249261313;
   1770035416; 2336552879; 4294925233; 2304563134;
   1804603682; 4254626195; 2792965006; 1236535329;
   4129170786; 3225465664; 643717713; 3921069994;
   3593408605; 38016083; 3634488961; 3889429448;
   568446438; 3275163606; 4107603335; 1163531501;
   2850285829; 4243563512; 1735328473; 2368359562;
   4294588738; 2272392833; 1839030562; 4259657740;
   2763975236; 1272893353; 4139469664; 3200236656;
   681279174; 3936430074; 3572445317; 76029189;
   3654602809; 3873151461; 530742520; 3299628645;
   4096336452; 1126891415; 2878612391; 4237533241;
   1700485571; 2399980690; 4293915773; 2240044497;
   1873313359; 4264355552; 2734768916; 1309151649;
   4149444226; 3174756917; 718787259; 3951481745].

(** Little-endian bytes of a word, and back. *)
Fixpoint le_bytes (n : nat) (x : Z) : list Z :=
  match n with
  | O => []
  | S k => Z.land x 255 :: le_bytes k (Z.shiftr x 8)
  end.

Fixpoint le_word (bs : list Z) : Z :=
  match bs with
  | [] => 0
  | b :: r => b + 256 * le_word r
  end.

Definition pad (msg : list Z) : list Z :=
  let len := Z.of_nat (List.length msg) in
  let zeros := Z.to_nat ((55 - len) mod 64) in
  (msg ++ [128] ++ List.repeat 0 zeros ++ le_bytes 8 (8 * len))%list.

Fixpoint words (n : nat) (bs : list Z) : list Z :=
  match n with
  | O => []
  | S k => le_word (List.firstn 4 bs) :: words k (List.skipn 4 bs)
  end.

Record regs := { ra : Z; rb : Z; rc : Z; rd : Z }.

Definition init : regs :=
  {| ra := 1732584193; rb := 4023233417; rc := 2562383102; rd := 271733878 |}.

Definition step (m : list Z) (r : regs) (i : Z) : regs :=
  let '(f, g) :=
    if i <? 16 then
      (Z.lor (Z.land (rb r) (rc r)) (Z.land (Z.lxor (rb r) 4294967295) (rd r)), i)
    else if i <? 32 then
      (Z.lor (Z.land (rd r) (rb r)) (Z.land (Z.lxor (rd r) 4294967295) (rc r)),
       (5 * i + 1) mod 16)
    else if i <? 48 then
      (Z.lxor (rb r) (Z.lxor (rc r) (rd r)), (3 * i + 5) mod 16)
    else
      (Z.lxor (rc r) (Z.lor (rb r) (Z.lxor (rd r) 4294967295)), (7 * i) mod 16) in
  let k := List.nth (Z.to_nat i) sines 0 in
  let s := List.nth (Z.to_nat i) shifts 0 in
  let x := mask32 (f + ra r + k + List.nth (Z.to_nat g) m 0) in
  {| ra := rd r; rb := mask32 (rb r + rotl32 x s); rc := rb r; rd := rc r |}.

Definition rounds : list Z := List.map Z.of_nat (List.seq 0 64).

Definition chunk (r : regs) (bs : list Z) : regs :=
  let r' := List.fold_left (step (words 16 bs)) rounds r in
  {| ra := mask32 (ra r + ra r'); rb := mask32 (rb r + rb r');
     rc := mask32 (rc r + rc r'); rd := mask32 (rd r + rd r') |}.

Fixpoint chunks (n : nat) (r : regs) (bs : list Z) : regs :=
  match n with
  | O => r
  | S k => chunks k (chunk r (List.firstn 64 bs)) (List.skipn 64 bs)
  end.

Definition digest (msg : list Z) : list Z :=
  let p := pad msg in
  let r := chunks (Nat.div (List.length p) 64) init p in
  (le_bytes 4 (ra r) ++ le_bytes 4 (rb r) ++ le_bytes 4 (rc r)
     ++ le_bytes 4 (rd r))%list.

Definition hex_digit (d : Z) : N :=
  Z.to_N (if d <? 10 then 48 + d else 87 + d).

Definition hexdigest (msg : list Z) : str :=
  List.flat_map (fun b => [hex_digit (b / 16); hex_digit (b mod 16)])
    (digest msg).

End MD5.

(** ** datetime: naive and aware values, [<], [isoformat] *)

Module DateTime.

(** [micros] counts the microseconds of the wall-clock fields since
    0001-01-01T00:00:00, the smallest datetime; [tzinfo] is [None] for a
    naive value and the UTC offset in seconds for an aware one. *)
Record datetime := { micros : Z; tzinfo : option Z }.

Definition naive (us : Z) : datetime := {| micros := us; tzinfo := None |}.

Definition micros_per_hour : Z := 3600000000.
Definition micros_per_day : Z := 86400000000.

(** The largest datetime, 9999-12-31T23:59:59.999999, and the largest
    number of days of a timedelta. *)
Definition max_micros : Z := 3652059 * micros_per_day - 1.
Definition max_delta_days : Z := 999999999.

(** [timedelta(hours=h)] for an integer [h], in microseconds; [None] stands
    for the OverflowError raised when the number of days, rounded down, has
    a magnitude above 999999999. *)
Definition timedelta_hours (h : Z) : option Z :=
  let us := h * micros_per_hour in
  let days := us / micros_per_day in
  if (- max_delta_days <=? days) && (days <=? max_delta_days)
  then Some us else None.

(** [d - delta]; [None] stands for the OverflowError raised when the result
    is not between the smallest and the largest datetime. *)
Definition sub (d : datetime) (delta : Z) : option datetime :=
  let us := micros d - delta in
  if (0 <=? us) && (us <=? max_micros)
  then Some {| micros := us; tzinfo := tzinfo d |} else None.

(** [d - timedelta(hours=h)] *)
Definition sub_hours (d : datetime) (h : Z) : option datetime :=
  match timedelta_hours h with
  | Some delta => sub d delta
  | None => None
  end.

(** [a < b]; [None] stands for the TypeError raised when a naive value is
    compared with an aware one. *)
Definition lt (a b : datetime) : option bool :=
  match tzinfo a, tzinfo b with
  | None, None => Some (micros a <? micros b)
  | Some oa, Some ob =>
    Some (micros a - oa * 1000000 <? micros b - ob * 1000000)
  | _, _ => None
  end.

(** Year, month and day of a day count (day 0 is 0001-01-01), proleptic
    Gregorian calendar. *)
Definition civil (days : Z) : Z * Z * Z :=
  let z := days + 306 in
  let era := z / 146097 in
  let doe := z mod 146097 in
  let yoe := (doe - doe / 1460 + doe / 36524 - doe / 146096) / 365 in
  let doy := doe - (365 * yoe + yoe / 4 - yoe / 100) in
  let mp := (5 * doy + 2) / 153 in
  let d := doy - (153 * mp + 2) / 5 + 1 in
  let m := if mp <? 10 then mp + 3 else mp - 9 in
  let y := yoe + era * 400 + (if m <=? 2 then 1 else 0) in
  (y, m, d).

Definition colon : N := 58.

Definition isoformat_offset (off : Z) : str :=
  let a := Z.abs off in
  let hhmm :=
    ((if off <? 0 then 45%N else 43%N) :: zfill 2 (a / 3600)
       ++ colon :: zfill 2 (a / 60 mod 60))%list in
  if a mod 60 =? 0 then hhmm else (hhmm ++ colon :: zfill 2 (a mod 60))%list.

(** [d.isoformat()]: YYYY-MM-DDTHH:MM:SS, then .ffffff unless the
    microsecond is 0, then the offset of an aware value. *)
Definition isoformat (d : datetime) : str :=
  let days := micros d / micros_per_day in
  let rest := micros d mod micros_per_day in
  let '(y, m, dd) := civil days in
  let secs := rest / 1000000 in
  let us := rest mod 1000000 in
  (zfill 4 y ++ 45%N :: zfill 2 m ++ 45%N :: zfill 2 dd ++ 84%N
     :: zfill 2 (secs / 3600) ++ colon :: zfill 2 (secs / 60 mod 60)
     ++ colon :: zfill 2 (secs mod 60)
     ++ (if us =? 0 then [] else 46%N :: zfill 6 us)
     ++ match tzinfo d with None => [] | Some off => isoformat_offset off end)%list.

(** The microsecond count of a calendar date and time of day, for writing
    examples. *)
Definition days_from_civil (y m d : Z) : Z :=
  let y' := if m <=? 2 then y - 1 else y in
  let era := y' / 400 in
  let yoe := y' mod 400 in
  let mp := if m <=? 2 then m + 9 else m - 3 in
  let doy := (153 * mp + 2) / 5 + d - 1 in
  let doe := yoe * 365 + yoe / 4 - yoe / 100 + doy in
  era * 146097 + doe - 306.

Definition at_time (y m d hh mm ss us : Z) : Z :=
  days_from_civil y m d * micros_per_day
  + ((hh * 60 + mm) * 60 + ss) * 1000000 + us.

End DateTime.
Import DateTime.

(** ** The statement-level model: exceptions and the collector's state *)

(** An article is the dict built by the three record sources. *)
Record article := {
  title : str;
  url : str;
  summary : str;
  source : str;
  published : str;
  score : Z
}.

Definition set_score (a : article) (sc : Z) : article :=
  {| title := title a; url := url a; summary := summary a;
     source := source a; published := published a; score := sc |}.

(** A feed entry is a dict from keys to strings, read with
    [entry.get(key, '')]. *)
Abbreviation entry := (gmap string str).

Definition entry_get (e : entry) (key : string) : str :=
  match e !! key with Some v => v | None => [] end.

(** What BeautifulSoup finds in one container: the text of the title and
    summary elements when they exist, and for the link element its [href]
    attribute when it has one. *)
Record container := {
  title_elem : option str;
  link_elem : option (option str);
  summary_elem : option str
}.

Record response := {
  status_code : Z;
  containers : list container
}.

Inductive exn :=
| TypeError
| IndexError
| OverflowError
| UnicodeEncodeError
| Exception (msg : str).

Inductive outcome (A : Type) :=
| Return (a : A)
| Raise (e : exn).
Arguments Return {A} a.
Arguments Raise {A} e.

(** Everything the module gets from its imports.  [now n] is the value of
    the [n]-th call of [datetime.now()] (microseconds, naive); [strptime s
    fmt] is [None] when [datetime.strptime] raises; [lower] is [str.lower];
    [feedparser_parse] and [requests_get] answer per URL, [Raise] standing
    for any exception of the fetch or of the parsing of its payload. *)
Record env := {
  now : nat -> Z;
  strptime : str -> str -> option datetime;
  lower : str -> str;
  feedparser_parse : str -> outcome (list entry);
  requests_get : str -> outcome response
}.

(** The attributes of the collector that change, [self.collected_news] and
    [self.seen_urls], and the number of clock readings taken so far. *)
Record state := {
  collected_news : list article;
  seen_urls : gset str;
  clock_reads : nat
}.

(** A statement: it runs on a state, leaves a state, and returns or raises;
    the effects done before an exception stay. *)
Definition M (A : Type) : Type := state -> outcome A * state.

Definition raise {A} (e : exn) : M A := fun s => (Raise e, s).

#[export] Instance M_ret : MRet M := fun A a s => (Return a, s).

#[export] Instance M_bind : MBind M := fun A B k m s =>
  match m s with
  | (Return a, s') => k a s'
  | (Raise e, s') => (Raise e, s')
  end.

Definition lift {A} (o : outcome A) : M A := fun s => (o, s).

(** A library call that raises [e] where the model has [None]. *)
Definition or_raise {A} (e : exn) (o : option A) : outcome A :=
  match o with
  | Some a => Return a
  | None => Raise e
  end.

Definition get_state : M state := fun s => (Return s, s).

(** [try: body except Exception as e: print(...)] *)
Definition try_except (body : M unit) : M unit :=
  fun s => (Return tt, snd (body s)).

(** [for x in xs: body] *)
Fixpoint for_each {A} (xs : list A) (body : A -> M unit) : M unit :=
  match xs with
  | [] => mret tt
  | x :: rest => body x;; for_each rest body
  end.

(** The state after one more clock reading, and after
    [self.collected_news.append(a); self.seen_urls.add(a['url'])]. *)
Definition tick (s : state) : state :=
  {| collected_news := collected_news s; seen_urls := seen_urls s;
     clock_reads := S (clock_reads s) |}.

Definition appended (a : article) (s : state) : state :=
  {| collected_news := (collected_news s ++ [a])%list;
     seen_urls := {[ url a ]} ∪ seen_urls s;
     clock_reads := clock_reads s |}.

(** [datetime.now()] *)
Definition datetime_now (w : env) : M datetime :=
  fun s => (Return (naive (now w (clock_reads s))), tick s).

Definition append_article (a : article) : M unit :=
  fun s => (Return tt, appended a s).

(** [xs[:n]] for an integer [n] of either sign. *)
Definition slice_to {A} (n : Z) (xs : list A) : list A :=
  if 0 <=? n then List.firstn (Z.to_nat n) xs
  else List.firstn (Z.to_nat (Z.of_nat (List.length xs) + n)) xs.

Definition len {A} (xs : list A) : Z := Z.of_nat (List.length xs).

(** ** EnhancedNewsCollector *)

Record feed_info := {
  feed_name : str;
  feed_url : str;
  feed_filter : option (list str)
}.

(** [self.rss_feeds] *)
Definition rss_feeds : list feed_info := Eval vm_compute in
  [ {| feed_name := py "Google News - AI";
       feed_url := py "https://news.google.com/rss/search?q=AI+人工知能&hl=ja&gl=JP&ceid=JP:ja";
       feed_filter := None |};
    {| feed_name := py "ITmedia AI+";
       feed_url := py "https://rss.itmedia.co.jp/rss/2.0/aiplus.xml";
       feed_filter := None |};
    {| feed_name := py "GIGAZINE";
       feed_url := py "https://gigazine.net/news/rss_2.0/";
       feed_filter := Some [py "AI"; py "人工知能"; py "ChatGPT"; py "機械学習"] |} ].

(** [self.web_sources]; the selectors are applied by BeautifulSoup and
    show in the model as the fields of [container]. *)
Record web_source := {
  web_name : str;
  web_url : str
}.

Definition web_sources : list web_source := Eval vm_compute in
  [ {| web_name := py "AI News Japan"; web_url := py "https://ledge.ai/categories/news/" |};
    {| web_name := py "ASCII AI"; web_url := py "https://ascii.jp/ai/" |} ].

(** [__init__]: nothing collected, nothing seen. *)
Definition __init__ : state :=
  {| collected_news := []; seen_urls := ∅; clock_reads := O |}.

(** [re.sub(r'<[^>]+>', '', text)].  A match starts at a [<] that is followed
    by at least one character other than [>] and then, somewhere, by a [>];
    it ends at the first such [>].  [inside] tells that a match is being
    skipped. *)
Definition is_gt (c : N) : bool := (c =? 62)%N.
Definition is_lt (c : N) : bool := (c =? 60)%N.

Definition tag_opens (rest : str) : bool :=
  match rest with
  | [] => false
  | d :: _ => negb (is_gt d) && List.existsb is_gt rest
  end.

Fixpoint sub_tags (inside : bool) (text : str) : str :=
  match text with
  | [] => []
  | c :: rest =>
    if inside then
      if is_gt c then sub_tags false rest else sub_tags true rest
    else if is_lt c && tag_opens rest then sub_tags true rest
    else c :: sub_tags false rest
  end.

(** [re.sub(r'\s+', ' ', text)]; [in_run] tells that the previous character
    was whitespace. *)
Fixpoint sub_spaces (in_run : bool) (text : str) : str :=
  match text with
  | [] => []
  | c :: rest =>
    if isspace c then
      if in_run then sub_spaces true rest else 32%N :: sub_spaces true rest
    else c :: sub_spaces false rest
  end.

Definition _clean_text (text : str) : str :=
  let text := sub_tags false text in
  let text := sub_spaces false text in
  let text := strip text in
  let text := replace [12288%N] [32%N] text in
  let text := replace [160%N] [32%N] text in
  text.

Definition ai_keywords : list str := Eval vm_compute in
  [ py "AI"; py "人工知能"; py "ChatGPT"; py "GPT"; py "Gemini"; py "Claude";
    py "機械学習"; py "ディープラーニング"; py "深層学習"; py "ニューラルネット";
    py "生成AI"; py "LLM"; py "大規模言語モデル"; py "画像生成"; py "音声認識";
    py "OpenAI"; py "Google AI"; py "Microsoft AI"; py "Meta AI";
    py "Stable Diffusion"; py "DALL-E"; py "Midjourney";
    py "AIアシスタント"; py "チャットボット"; py "自動化"; py "ロボット" ].

Definition _is_ai_related (w : env) (text : str) : bool :=
  let text_lower := lower w text in
  List.existsb (fun keyword => contains (lower w keyword) text_lower) ai_keywords.

Definition date_formats : list str := Eval vm_compute in
  [ py "%a, %d %b %Y %H:%M:%S %Z";
    py "%Y-%m-%dT%H:%M:%S%z";
    py "%Y-%m-%d %H:%M:%S";
    py "%Y/%m/%d %H:%M:%S" ].

Definition GMT : str := Eval vm_compute in py "GMT".
Definition plus0000 : str := Eval vm_compute in py "+0000".

Fixpoint try_formats (w : env) (date_str : str) (fmts : list str)
  : option datetime :=
  match fmts with
  | [] => None
  | fmt :: rest =>
    match strptime w (replace GMT plus0000 date_str) fmt with
    | Some d => Some d
    | None => try_formats w date_str rest
    end
  end.

Definition _parse_date (w : env) (date_str : str) : option datetime :=
  if negb (truthy date_str) then None
  else try_formats w date_str date_formats.

(** The test [published and published < time_limit]; a datetime is always
    true as a condition. *)
Definition older_than (published : option datetime) (time_limit : datetime)
  : M bool :=
  match published with
  | None => mret false
  | Some p =>
    match DateTime.lt p time_limit with
    | Some b => mret b
    | None => raise TypeError
    end
  end.

(** [not any(keyword in title for keyword in feed_info['filter'])] when the
    feed has a filter. *)
Definition filtered_out (f : feed_info) (raw_title : str) : bool :=
  match feed_filter f with
  | None => false
  | Some keywords => negb (List.existsb (fun keyword => contains keyword raw_title) keywords)
  end.

(** The URL test shared by the record sources:
    [url and url not in self.seen_urls]. *)
Definition add_if_new (a : article) : M unit :=
  s ← get_state;
  if truthy (url a) && negb (bool_decide (url a ∈ seen_urls s))
  then append_article a
  else mret tt.

(** The body of the loop over [feed.entries[:10]]. *)
Definition rss_entry (w : env) (time_limit : datetime) (f : feed_info)
    (e : entry) : M unit :=
  let published := _parse_date w (entry_get e "published") in
  old ← older_than published time_limit;
  if (old : bool) then mret tt
  else if filtered_out f (entry_get e "title") then mret tt
  else
    stamp ← match published with
            | Some p => mret (isoformat p)
            | None => t ← datetime_now w; mret (isoformat t)
            end;
    add_if_new
      {| title := _clean_text (entry_get e "title");
         url := entry_get e "link";
         summary := _clean_text (List.firstn 200 (entry_get e "summary"));
         source := feed_name f;
         published := stamp;
         score := 0 |}.

(** The body of the loop over [self.rss_feeds], with its handler. *)
Definition rss_feed (w : env) (time_limit : datetime) (f : feed_info) : M unit :=
  try_except (
    entries ← lift (feedparser_parse w (feed_url f));
    match entries with
    | [] => mret tt
    | _ => for_each (List.firstn 10 entries) (rss_entry w time_limit f)
    end).

Definition _collect_from_rss (w : env) (time_limit : datetime) : M unit :=
  for_each rss_feeds (rss_feed w time_limit).

(** [source['url'].split('/')[0] + '//' + source['url'].split('/')[2] + url] *)
Definition slash : N := 47.

Definition absolute_url (src : web_source) (href : str) : M str :=
  let parts := split slash (web_url src) in
  match List.nth_error parts 0, List.nth_error parts 2 with
  | Some scheme, Some host => mret (scheme ++ [slash; slash] ++ host ++ href)%list
  | _, _ => raise IndexError
  end.

Definition http : str := Eval vm_compute in py "http".
Definition synthesized_suffix : str := Eval vm_compute in py "に関する最新情報です。".

(** The body of the loop over the containers of one page. *)
Definition web_container (w : env) (src : web_source) (c : container) : M unit :=
  match title_elem c with
  | None => mret tt
  | Some text =>
    let title := _clean_text text in
    if negb (_is_ai_related w title) then mret tt
    else
      let href := match link_elem c with
                  | Some (Some h) => h
                  | _ => []
                  end in
      url ← (if truthy href && negb (startswith href http)
             then absolute_url src href else mret href);
      let summary := match summary_elem c with
                     | Some t => _clean_text (List.firstn 200 t)
                     | None => []
                     end in
      t ← datetime_now w;
      add_if_new
        {| title := title;
           url := url;
           summary := if truthy summary then summary
                      else (title ++ synthesized_suffix)%list;
           source := web_name src;
           published := isoformat t;
           score := 0 |}
  end.

(** The body of the loop over [self.web_sources], with its handler. *)
Definition web_page (w : env) (src : web_source) : M unit :=
  try_except (
    resp ← lift (requests_get w (web_url src));
    if negb (status_code resp =? 200) then mret tt
    else for_each (List.firstn 5 (containers resp)) (web_container w src)).

Definition _collect_from_web (w : env) : M unit :=
  for_each web_sources (web_page w).

(** The three fixed articles of [_add_fallback_news], each taking its own
    clock reading. *)
Definition fallback_1 (stamp : str) : article := Eval vm_compute in
  {| title := py "【最新】生成AIが変える私たちの未来";
     summary := py "ChatGPTやGeminiなどの生成AIが、教育やビジネスの現場で急速に普及しています。AIとの共存について考える時が来ています。";
     url := py "https://example.com/ai-future";
     source := py "AI Times (Fallback)";
     published := stamp;
     score := 0 |}.

Definition fallback_2 (stamp : str) : article := Eval vm_compute in
  {| title := py "AI技術の倫理的な課題と解決策";
     summary := py "AI技術の発展に伴い、プライバシーや著作権などの倫理的な課題が浮上しています。適切なルール作りが求められています。";
     url := py "https://example.com/ai-ethics";
     source := py "Tech Ethics (Fallback)";
     published := stamp;
     score := 0 |}.

Definition fallback_3 (stamp : str) : article := Eval vm_compute in
  {| title := py "日本企業のAI活用事例10選";
     summary := py "製造業からサービス業まで、様々な分野でAIが活用されています。成功事例から学ぶAI導入のポイントを紹介します。";
     url := py "https://example.com/ai-cases";
     source := py "Business AI (Fallback)";
     published := stamp;
     score := 0 |}.

Definition add_if_unseen (a : article) : M unit :=
  s ← get_state;
  if negb (bool_decide (url a ∈ seen_urls s)) then append_article a
  else mret tt.

Definition _add_fallback_news (w : env) : M unit :=
  t1 ← datetime_now w;
  t2 ← datetime_now w;
  t3 ← datetime_now w;
  let fallback_news :=
    [fallback_1 (isoformat t1); fallback_2 (isoformat t2);
     fallback_3 (isoformat t3)] in
  for_each fallback_news add_if_unseen.

(** [hashlib.md5(article['title'][:30].encode()).hexdigest()]; [None]
    when [encode] raises. *)
Definition title_hash (a : article) : option str :=
  match encode (List.firstn 30 (title a)) with
  | Some bs => Some (MD5.hexdigest bs)
  | None => None
  end.

(** The loop of [_remove_duplicates]: the articles appended to
    [unique_news] from here on, given the current [seen_titles].  The loop
    stands in no handler: the first title that cannot be encoded ends it
    with UnicodeEncodeError. *)
Fixpoint remove_duplicates_loop (news : list article) (seen_titles : gset str)
  : outcome (list article) :=
  match news with
  | [] => Return []
  | a :: rest =>
    match title_hash a with
    | None => Raise UnicodeEncodeError
    | Some h =>
      if negb (bool_decide (h ∈ seen_titles))
      then match remove_duplicates_loop rest ({[ h ]} ∪ seen_titles) with
           | Return unique_news => Return (a :: unique_news)
           | Raise e => Raise e
           end
      else remove_duplicates_loop rest seen_titles
    end
  end.

(** [_remove_duplicates] reads [self.collected_news] and changes nothing. *)
Definition _remove_duplicates (s : state) : outcome (list article) :=
  remove_duplicates_loop (collected_news s) ∅.

Definition important_keywords : list str := Eval vm_compute in
  [ py "ChatGPT"; py "GPT-4"; py "Gemini"; py "Claude";
    py "最新"; py "発表"; py "新機能"; py "革新" ].

Definition trusted_sources : list str := Eval vm_compute in
  [ py "Google News"; py "ITmedia"; py "ASCII" ].

(** The score computed by the loop body of [_score_and_sort].  The loop
    writes it into the dict, which [self.collected_news] holds too; since
    the score is computed from the other fields and written before it is
    read, the value stored from an earlier call never shows in a result,
    and the model leaves the stored records as they were inserted. *)
Definition keyword_score (title : str) : Z :=
  List.fold_left
    (fun score keyword => if contains keyword title then score + 10 else score)
    important_keywords 0.

Definition compute_score (a : article) : Z :=
  let score := keyword_score (title a) in
  let score :=
    if List.existsb (fun src => contains src (source a)) trusted_sources
    then score + 5 else score in
  let score := if 100 <? len (summary a) then score + 3 else score in
  let score :=
    if truthy (url a) && startswith (url a) http then score + 2 else score in
  score.

(** The sort key [(x['score'], x['published'])] and the order of tuples. *)
Definition key_lt (a b : article) : bool :=
  (score a <? score b)
  || (score a =? score b)
     && match PyStr.compare (published a) (published b) with
        | Lt => true
        | _ => false
        end.

(** [sorted(news_list, key=..., reverse=True)]: the stable sort in
    descending order, articles with equal keys keeping their order. *)
Fixpoint insert_desc (x : article) (sorted : list article) : list article :=
  match sorted with
  | [] => [x]
  | y :: rest => if key_lt x y then y :: insert_desc x rest else x :: sorted
  end.

Fixpoint sorted_desc (news : list article) : list article :=
  match news with
  | [] => []
  | x :: rest => insert_desc x (sorted_desc rest)
  end.

Definition _score_and_sort (news_list : list article) : list article :=
  sorted_desc (List.map (fun a => set_score a (compute_score a)) news_list).

Definition get_ai_news (w : env) (limit hours_back : Z) : M (list article) :=
  t ← datetime_now w;
  time_limit ← lift (or_raise OverflowError (sub_hours t hours_back));
  _collect_from_rss w time_limit;;
  s1 ← get_state;
  (if len (collected_news s1) <? limit then _collect_from_web w else mret tt);;
  s2 ← get_state;
  (if len (collected_news s2) <? limit then _add_fallback_news w else mret tt);;
  s3 ← get_state;
  unique_news ← lift (_remove_duplicates s3);
  let scored_news := _score_and_sort unique_news in
  mret (slice_to limit scored_news).

(** ** Vocabulary of the properties *)

(** The list returned by a call, empty when the call raised. *)
Definition returned {A} (r : outcome (list A) * state) : list A :=
  match fst r with
  | Return l => l
  | Raise _ => []
  end.

(** The article built from a feed entry, with its time stamp. *)
Definition article_of_entry (f : feed_info) (e : entry) (stamp : str) : article :=
  {| title := _clean_text (entry_get e "title");
     url := entry_get e "link";
     summary := _clean_text (List.firstn 200 (entry_get e "summary"));
     source := feed_name f;
     published := stamp;
     score := 0 |}.

(** How a record of the working set came to be.  A feed record comes from
    one of the first ten entries of a feed of the registry, parsed without
    error, that passed the date test and the keyword filter; its stamp is
    the parsed date, or a clock reading when no format matched. *)
Definition passed_date_test (w : env) (time_limit : datetime) (e : entry)
    (stamp : str) : Prop :=
  match _parse_date w (entry_get e "published") with
  | Some p => DateTime.lt p time_limit = Some false ∧ stamp = isoformat p
  | None => ∃ n, stamp = isoformat (naive (now w n))
  end.

Definition feed_article (w : env) (time_limit : datetime) (a : article) : Prop :=
  ∃ f entries e stamp,
    f ∈ rss_feeds ∧
    feedparser_parse w (feed_url f) = Return entries ∧
    e ∈ List.firstn 10 entries ∧
    passed_date_test w time_limit e stamp ∧
    filtered_out f (entry_get e "title") = false ∧
    url a ≠ [] ∧
    a = article_of_entry f e stamp.

(** A scraped record comes from one of the first five containers of a page
    answered with status 200; its title passed the relevance filter; its
    summary is the cleaned snippet when that is not empty, else the title
    followed by the fixed suffix. *)
Definition web_article (w : env) (a : article) : Prop :=
  ∃ src resp c text,
    src ∈ web_sources ∧
    requests_get w (web_url src) = Return resp ∧
    status_code resp = 200 ∧
    c ∈ List.firstn 5 (containers resp) ∧
    title_elem c = Some text ∧
    title a = _clean_text text ∧
    _is_ai_related w (title a) = true ∧
    url a ≠ [] ∧
    source a = web_name src ∧
    score a = 0 ∧
    (∃ n, published a = isoformat (naive (now w n))) ∧
    match summary_elem c with
    | Some t =>
      if truthy (_clean_text (List.firstn 200 t))
      then summary a = _clean_text (List.firstn 200 t)
      else summary a = (title a ++ synthesized_suffix)%list
    | None => summary a = (title a ++ synthesized_suffix)%list
    end.

Definition fallback_article (w : env) (a : article) : Prop :=
  ∃ n, a = fallback_1 (isoformat (naive (now w n)))
       ∨ a = fallback_2 (isoformat (naive (now w n)))
       ∨ a = fallback_3 (isoformat (naive (now w n))).

Definition origin (w : env) (time_limit : datetime) (a : article) : Prop :=
  feed_article w time_limit a ∨ web_article w a ∨ fallback_article w a.

(** Two articles that may follow each other in the sorted list: the key of
    the second is not above the key of the first. *)
Definition in_order (a b : article) : Prop := key_lt a b = false.

(** One change of the state: a clock reading, or the insertion of a record
    that satisfies [P] and whose URL was not seen. *)
Inductive step (P : article → Prop) : state → state → Prop :=
| step_tick s : step P s (tick s)
| step_append s a : P a → url a ∉ seen_urls s → step P s (appended a s).

(** A statement that only changes the state by such steps, and whose
    returned value satisfies [Q]. *)
Definition emits {A} (P : article → Prop) (Q : A → Prop) (m : M A) : Prop :=
  ∀ s, rtc (step P) s (snd (m s)) ∧
       match fst (m s) with Return a => Q a | Raise _ => True end.

(** The class invariant tying [self.seen_urls] to [self.collected_news]:
    every seen URL is the URL of a collected record, and no two collected
    records share a URL. *)
Definition consistent (s : state) : Prop :=
  NoDup (url <$> collected_news s) ∧
  ∀ u, u ∈ seen_urls s ↔ u ∈ (url <$> collected_news s).

(** The scoring rule as the design states it: four components that add up. *)
Definition keyword_points (title : str) : Z :=
  10 * len (List.filter (λ keyword, contains keyword title) important_keywords).

Definition trusted_points (source : str) : Z :=
  if List.existsb (λ src, contains src source) trusted_sources then 5 else 0.

Definition summary_points (summary : str) : Z :=
  if 100 <? len summary then 3 else 0.

Definition url_points (url : str) : Z :=
  if truthy url && startswith url http then 2 else 0.

(** What is assumed of [str.lower]: it maps the empty string, and only the
    empty string, to the empty string. *)
Definition lower_sane (w : env) : Prop :=
  lower w [] = [] ∧ ∀ s : str, s ≠ [] → lower w s ≠ [].

(** A record that is not from a feed has a title. *)
Definition titled_unless_fed (a : article) : Prop :=
  (∀ f, f ∈ rss_feeds → source a ≠ feed_name f) → title a ≠ [].

(** The summary of a record has at most 200 characters, or the record was
    scraped from a container whose snippet is missing or empty after
    cleaning, and its summary is its title followed by the fixed suffix
    of 11 characters. *)
Definition summary_bounded (w : env) (a : article) : Prop :=
  len (summary a) ≤ 200 ∨
  ∃ src resp c text,
    src ∈ web_sources ∧ source a = web_name src ∧
    requests_get w (web_url src) = Return resp ∧
    c ∈ List.firstn 5 (containers resp) ∧
    title_elem c = Some text ∧ title a = _clean_text text ∧
    match summary_elem c with
    | Some t => _clean_text (List.firstn 200 t) = []
    | None => True
    end ∧
    summary a = (title a ++ synthesized_suffix)%list ∧
    len (summary a) = len (title a) + 11.


(** A feed that gives no entry, and a page that gives no container. *)
Definition no_entries (o : outcome (list entry)) : Prop :=
  match o with
  | Return entries => entries = []
  | Raise _ => True
  end.

Definition no_containers (o : outcome response) : Prop :=
  match o with
  | Return resp => status_code resp ≠ 200 ∨ containers resp = []
  | Raise _ => True
  end.

(** ** Example environments *)

Module Examples.

(** Lower case of the ASCII letters. *)
Definition ascii_lower (s : str) : str :=
  List.map (λ c, if ((65 <=? c) && (c <=? 90))%N then (c + 32)%N else c) s.

(** A clock that starts at noon on 2024-05-01 and advances by one
    microsecond at each reading. *)
Definition noon (n : nat) : Z := at_time 2024 5 1 12 0 0 (Z.of_nat n).

(** A [strptime] that knows the date strings of the examples: two in the
    third format, one in the second (with a UTC offset, hence aware). *)
Definition example_strptime (s fmt : str) : option datetime :=
  if bool_decide (fmt = py "%Y-%m-%d %H:%M:%S") then
    if bool_decide (s = py "2024-04-01 00:00:00")
    then Some (naive (at_time 2024 4 1 0 0 0 0))
    else if bool_decide (s = py "2024-05-01 09:00:00")
    then Some (naive (at_time 2024 5 1 9 0 0 0))
    else None
  else if bool_decide (fmt = py "%Y-%m-%dT%H:%M:%S%z") then
    if bool_decide (s = py "2024-05-01T09:00:00+0900")
    then Some {| micros := at_time 2024 5 1 9 0 0 0; tzinfo := Some 32400 |}
    else None
  else None.

(** Every feed is empty and every page request fails. *)
Definition quiet : env :=
  {| now := noon;
     strptime := example_strptime;
     lower := ascii_lower;
     feedparser_parse := λ _, Return [];
     requests_get := λ _, Raise (Exception (py "timeout")) |}.

(** Entries of the first feed: two entries with the same title and
    different links, one without a title, one a month old, one from the
    same morning. *)
Definition entry_a : entry :=
  {[ "title"%string := py "ChatGPT update"; "link"%string := py "https://a.example/1";
     "summary"%string := py "<p>First  report</p>" ]}.
Definition entry_b : entry :=
  {[ "title"%string := py "ChatGPT update"; "link"%string := py "https://a.example/2";
     "summary"%string := py "Second report" ]}.
Definition entry_untitled : entry :=
  {[ "link"%string := py "https://a.example/3" ]}.
Definition entry_old : entry :=
  {[ "title"%string := py "Gemini last month"; "link"%string := py "https://a.example/4";
     "published"%string := py "2024-04-01 00:00:00" ]}.
Definition entry_morning : entry :=
  {[ "title"%string := py "Claude this morning"; "link"%string := py "https://a.example/5";
     "published"%string := py "2024-05-01 09:00:00" ]}.

(** A container whose title has 300 characters and that has no summary
    element. *)
Definition long_title : str := (py "AI" ++ List.repeat 120%N 298)%list.
Definition container_long : container :=
  {| title_elem := Some long_title;
     link_elem := Some (Some (py "/news/1"));
     summary_elem := None |}.

(** The first feed answers with the five entries, the second raises, the
    third is empty; the first page answers 200 with one container, the
    second answers 404. *)
Definition newsroom : env :=
  {| now := noon;
     strptime := example_strptime;
     lower := ascii_lower;
     feedparser_parse := λ u,
       if bool_decide (u = py "https://news.google.com/rss/search?q=AI+人工知能&hl=ja&gl=JP&ceid=JP:ja")
       then Return [entry_a; entry_b; entry_untitled; entry_old; entry_morning]
       else if bool_decide (u = py "https://rss.itmedia.co.jp/rss/2.0/aiplus.xml")
       then Raise (Exception (py "connection reset"))
       else Return [];
     requests_get := λ u,
       if bool_decide (u = py "https://ledge.ai/categories/news/")
       then Return {| status_code := 200; containers := [container_long] |}
       else Return {| status_code := 404; containers := [] |} |}.

(** The three feeds and the second page of the registry, and two records
    that [newsroom] leads to. *)
Definition google_news : feed_info :=
  {| feed_name := py "Google News - AI";
     feed_url := py "https://news.google.com/rss/search?q=AI+人工知能&hl=ja&gl=JP&ceid=JP:ja";
     feed_filter := None |}.

Definition itmedia : feed_info :=
  {| feed_name := py "ITmedia AI+";
     feed_url := py "https://rss.itmedia.co.jp/rss/2.0/aiplus.xml";
     feed_filter := None |}.

Definition ascii_ai : web_source :=
  {| web_name := py "ASCII AI"; web_url := py "https://ascii.jp/ai/" |}.


Definition scraped_record : article :=
  {| title := long_title;
     url := py "https://ledge.ai/news/1";
     summary := (long_title ++ py "に関する最新情報です。")%list;
     source := py "AI News Japan";
     published := py "2024-05-01T12:00:00.000004";
     score := 0 |}.


(** A page whose only container has a title that ends in a lone surrogate,
    U+D800, as the character reference [&#xD800;] leaves it in the text of
    an element.  Every feed is empty and the other page answers 404. *)
Definition surrogate_title : str := (py "AI news " ++ [55296%N])%list.

Definition container_surrogate : container :=
  {| title_elem := Some surrogate_title;
     link_elem := Some (Some (py "/news/2"));
     summary_elem := None |}.

Definition malformed : env :=
  {| now := noon;
     strptime := example_strptime;
     lower := ascii_lower;
     feedparser_parse := λ _, Return [];
     requests_get := λ u,
       if bool_decide (u = py "https://ledge.ai/categories/news/")
       then Return {| status_code := 200; containers := [container_surrogate] |}
       else Return {| status_code := 404; containers := [] |} |}.

Definition ledge : web_source :=
  {| web_name := py "AI News Japan"; web_url := py "https://ledge.ai/categories/news/" |}.

End Examples.

(** * Properties *)

(** ** Checks of the text model against known values *)

Example md5_empty : MD5.hexdigest [] = py "d41d8cd98f00b204e9800998ecf8427e".
Proof. vm_compute. reflexivity. Qed.

Example md5_abc :
  MD5.hexdigest <$> encode (py "abc") = Some (py "900150983cd24fb0d6963f7d28e17f72").
Proof. vm_compute. reflexivity. Qed.


Example md5_fallback_title :
  MD5.hexdigest <$> encode (List.firstn 30 (py "【最新】生成AIが変える私たちの未来"))
  = Some (py "46a12e0da7e5aef7d9653c4d2f43082c").
Proof. vm_compute. reflexivity. Qed.


Example md5_two_blocks :
  MD5.hexdigest <$> encode (List.repeat 120%N 70)
  = Some (py "7d56c0f83fd1e320d60ea2f13dfdeedd").
Proof. vm_compute. reflexivity. Qed.


Example md5_kana :
  MD5.hexdigest <$> encode (List.repeat 12354%N 30)
  = Some (py "b4eb8ee1c94a06d55c81af2a4168c12f").
Proof. vm_compute. reflexivity. Qed.

Example encode_four_bytes :
  encode [128512%N] = Some [240; 159; 152; 128].
Proof. reflexivity. Qed.

Example encode_lone_surrogate : encode (py "AI " ++ [55296%N]) = None.
Proof. reflexivity. Qed.

Example cutoff_two_days :
  isoformat <$> sub_hours (naive (at_time 2024 5 1 12 0 0 0)) 48
  = Some (py "2024-04-29T12:00:00").
Proof. vm_compute. reflexivity. Qed.

Example cutoff_before_year_1 :
  sub_hours (naive (at_time 2024 5 1 12 0 0 0)) 20000000 = None.
Proof. reflexivity. Qed.

Example cutoff_after_year_9999 :
  sub_hours (naive (at_time 2024 5 1 12 0 0 0)) (-70000000) = None.
Proof. reflexivity. Qed.

Example largest_datetime :
  isoformat (naive max_micros) = py "9999-12-31T23:59:59.999999".
Proof. vm_compute. reflexivity. Qed.


Example sub_tags_nested :
  sub_tags false (py "<a<b>x<>y>z<q") = py "x<>y>z<q".
Proof. vm_compute. reflexivity. Qed.

Example clean_text_markup :
  _clean_text (py "  <b>Hello</b>　 world  ") = py "Hello world".
Proof. vm_compute. reflexivity. Qed.

Example replace_GMT :
  replace GMT plus0000 (py "aGMTGMTb GM") = py "a+0000+0000b GM".
Proof. vm_compute. reflexivity. Qed.

Example split_url :
  split slash (py "https://ledge.ai/categories/news/")
  = [py "https:"; []; py "ledge.ai"; py "categories"; py "news"; []].
Proof. vm_compute. reflexivity. Qed.

Example isoformat_whole_second :
  isoformat (naive (at_time 2024 1 1 0 0 0 0)) = py "2024-01-01T00:00:00".
Proof. vm_compute. reflexivity. Qed.

Example isoformat_micro :
  isoformat (naive (at_time 2024 2 29 23 59 7 5)) = py "2024-02-29T23:59:07.000005".
Proof. vm_compute. reflexivity. Qed.

Example isoformat_aware :
  isoformat {| micros := at_time 1999 12 31 9 30 0 0; tzinfo := Some 32400 |}
  = py "1999-12-31T09:30:00+09:00".
Proof. vm_compute. reflexivity. Qed.

Example ordinal_2024 : days_from_civil 2024 1 1 = 738885.
Proof. reflexivity. Qed.


(** ** Running statements *)

Lemma run_ret {A} (a : A) (s : state) : (mret a : M A) s = (Return a, s).
Proof. reflexivity. Qed.

Lemma run_bind {A B} (m : M A) (k : A → M B) (s : state) :
  (m ≫= k) s =
  match m s with
  | (Return a, s') => k a s'
  | (Raise e, s') => (Raise e, s')
  end.
Proof. reflexivity. Qed.

Lemma run_try (body : M unit) (s : state) :
  try_except body s = (Return tt, snd (body s)).
Proof. reflexivity. Qed.

Lemma run_for_each_cons {A} (x : A) (xs : list A) (body : A → M unit) s :
  for_each (x :: xs) body s =
  match body x s with
  | (Return _, s') => for_each xs body s'
  | (Raise e, s') => (Raise e, s')
  end.
Proof. reflexivity. Qed.

(** A loop whose body is guarded by a handler runs every iteration, each
    from the state the previous one left, and returns. *)
Lemma run_for_each_try {A} (xs : list A) (body : A → M unit) (s : state) :
  for_each xs (λ x, try_except (body x)) s =
  (Return tt, fold_left (λ s' x, snd (body x s')) xs s).
Proof.
  revert s. induction xs as [|x xs IH]; intros s; [reflexivity|].
  rewrite run_for_each_cons, run_try. simpl. apply IH.
Qed.

(** ** The program logic of [emits] *)

Section Emits.
Context (P : article → Prop).

Lemma emits_ret {A} (Q : A → Prop) (a : A) : Q a → emits P Q (mret a).
Proof. intros HQ s. rewrite run_ret. simpl. split; [apply rtc_refl | exact HQ]. Qed.

Lemma emits_raise {A} (Q : A → Prop) (e : exn) : emits P Q (raise e).
Proof. intros s. unfold raise. simpl. split; [apply rtc_refl | exact I]. Qed.

Lemma emits_lift {A} (o : outcome A) : emits P (λ a, o = Return a) (lift o).
Proof.
  intros s. unfold lift. simpl. split; [apply rtc_refl|].
  destruct o; [reflexivity | exact I].
Qed.

Lemma emits_get_state : emits P (λ _ : state, True) get_state.
Proof. intros s. unfold get_state. simpl. split; [apply rtc_refl | exact I]. Qed.

Lemma emits_weaken {A} (Q Q' : A → Prop) (m : M A) :
  (∀ a, Q a → Q' a) → emits P Q m → emits P Q' m.
Proof.
  intros HQ Hm s. destruct (Hm s) as [Hs Hr]. split; [exact Hs|].
  destruct (fst (m s)); [apply HQ, Hr | exact I].
Qed.

Lemma emits_bind {A B} (Q : A → Prop) (R : B → Prop) (m : M A) (k : A → M B) :
  emits P Q m → (∀ a, Q a → emits P R (k a)) → emits P R (m ≫= k).
Proof.
  intros Hm Hk s. rewrite run_bind.
  destruct (Hm s) as [Hs Hr]. destruct (m s) as [[a|e] s']; simpl in *.
  - destruct (Hk a Hr s') as [Hs' Hr']. split; [|exact Hr'].
    eapply rtc_trans; eassumption.
  - split; [exact Hs | exact I].
Qed.

Lemma emits_try (body : M unit) :
  emits P (λ _, True) body → emits P (λ _, True) (try_except body).
Proof.
  intros Hb s. rewrite run_try. simpl. split; [apply (Hb s) | exact I].
Qed.

Lemma emits_for_each {A} (xs : list A) (body : A → M unit) :
  (∀ x, x ∈ xs → emits P (λ _, True) (body x)) →
  emits P (λ _, True) (for_each xs body).
Proof.
  induction xs as [|x xs IH]; intros Hb.
  - apply emits_ret. exact I.
  - simpl. apply emits_bind with (Q := λ _, True).
    + apply Hb. left.
    + intros _ _. apply IH. intros y Hy. apply Hb. right. exact Hy.
Qed.

Lemma emits_now (w : env) :
  emits P (λ t, ∃ n, t = naive (now w n)) (datetime_now w).
Proof.
  intros s. unfold datetime_now. simpl. split.
  - apply rtc_once, step_tick.
  - eexists. reflexivity.
Qed.

Lemma emits_add_if_new (a : article) :
  (url a ≠ [] → P a) → emits P (λ _, True) (add_if_new a).
Proof.
  intros Ha s. unfold add_if_new. rewrite run_bind. unfold get_state.
  destruct (truthy (url a)) eqn:Ht; simpl; [|split; [apply rtc_refl | exact I]].
  case_bool_decide; simpl; (split; [|exact I]); [apply rtc_refl|].
  apply rtc_once, step_append; [|assumption].
  apply Ha. destruct (url a); [discriminate | congruence].
Qed.

Lemma emits_add_if_unseen (a : article) :
  P a → emits P (λ _, True) (add_if_unseen a).
Proof.
  intros Ha s. unfold add_if_unseen. rewrite run_bind. unfold get_state.
  case_bool_decide; simpl; (split; [|exact I]); [apply rtc_refl|].
  apply rtc_once, step_append; assumption.
Qed.

End Emits.

(** ** What the three record sources insert *)

Lemma emits_older_than P (published : option datetime) (time_limit : datetime) :
  emits P (λ b, match published with
                | Some p => DateTime.lt p time_limit = Some b
                | None => b = false
                end) (older_than published time_limit).
Proof.
  unfold older_than. destruct published as [p|].
  - destruct (DateTime.lt p time_limit) as [b|].
    + apply emits_ret. reflexivity.
    + apply emits_raise.
  - apply emits_ret. reflexivity.
Qed.

Lemma emits_rss_entry (w : env) (time_limit : datetime) (f : feed_info)
    (entries : list entry) (e : entry) :
  f ∈ rss_feeds →
  feedparser_parse w (feed_url f) = Return entries →
  e ∈ List.firstn 10 entries →
  emits (origin w time_limit) (λ _, True) (rss_entry w time_limit f e).
Proof.
  intros Hf Hparse He. unfold rss_entry.
  eapply emits_bind; [apply emits_older_than|].
  intros old Hold. destruct old; [apply emits_ret; exact I|].
  destruct (filtered_out f (entry_get e "title")) eqn:Hfilter;
    [apply emits_ret; exact I|].
  apply emits_bind with (Q := passed_date_test w time_limit e).
  - unfold passed_date_test.
    destruct (_parse_date w (entry_get e "published")) as [p|].
    + apply emits_ret. split; [exact Hold | reflexivity].
    + eapply emits_bind; [apply emits_now|].
      intros t [n ->]. apply emits_ret. exists n. reflexivity.
  - intros stamp Hstamp. apply emits_add_if_new. intros Hurl. left.
    exists f, entries, e, stamp. repeat split; assumption.
Qed.

Lemma emits_rss_feed (w : env) (time_limit : datetime) (f : feed_info) :
  f ∈ rss_feeds →
  emits (origin w time_limit) (λ _, True) (rss_feed w time_limit f).
Proof.
  intros Hf. unfold rss_feed. apply emits_try.
  eapply emits_bind; [apply emits_lift|].
  intros entries Hparse. destruct entries as [|e0 rest] eqn:Hent.
  - apply emits_ret. exact I.
  - apply emits_for_each. intros e He.
    eapply emits_rss_entry; eassumption.
Qed.

Lemma emits_collect_from_rss (w : env) (time_limit : datetime) :
  emits (origin w time_limit) (λ _, True) (_collect_from_rss w time_limit).
Proof.
  unfold _collect_from_rss. apply emits_for_each.
  intros f Hf. apply emits_rss_feed, Hf.
Qed.

Lemma emits_absolute_url P (src : web_source) (href : str) :
  emits P (λ _, True) (absolute_url src href).
Proof.
  unfold absolute_url.
  destruct (nth_error _ 0) as [scheme|]; [|apply emits_raise].
  destruct (nth_error _ 2) as [host|]; [|apply emits_raise].
  apply emits_ret. exact I.
Qed.

Lemma emits_web_container (w : env) (time_limit : datetime) (src : web_source)
    (resp : response) (c : container) :
  src ∈ web_sources →
  requests_get w (web_url src) = Return resp →
  status_code resp = 200 →
  c ∈ List.firstn 5 (containers resp) →
  emits (origin w time_limit) (λ _, True) (web_container w src c).
Proof.
  intros Hsrc Hget Hstatus Hc. unfold web_container.
  destruct (title_elem c) as [text|] eqn:Htitle; [|apply emits_ret; exact I].
  destruct (_is_ai_related w (_clean_text text)) eqn:Hai; simpl;
    [|apply emits_ret; exact I].
  apply emits_bind with (Q := λ _, True).
  { destruct (truthy _ && negb _);
      [apply emits_absolute_url | apply emits_ret; exact I]. }
  intros u _. eapply emits_bind; [apply emits_now|].
  intros t [n ->]. apply emits_add_if_new. simpl. intros Hurl.
  right; left. exists src, resp, c, text. simpl.
  repeat split; try assumption; try reflexivity.
  - exists n. reflexivity.
  - destruct (summary_elem c) as [t|]; [|reflexivity].
    destruct (truthy (_clean_text (List.firstn 200 t))); reflexivity.
Qed.

Lemma emits_web_page (w : env) (time_limit : datetime) (src : web_source) :
  src ∈ web_sources →
  emits (origin w time_limit) (λ _, True) (web_page w src).
Proof.
  intros Hsrc. unfold web_page. apply emits_try.
  eapply emits_bind; [apply emits_lift|].
  intros resp Hget. destruct (status_code resp =? 200) eqn:Hstatus; simpl.
  - apply emits_for_each. intros c Hc.
    apply Z.eqb_eq in Hstatus. simpl in Hget.
    eapply emits_web_container; eassumption.
  - apply emits_ret. exact I.
Qed.

Lemma emits_collect_from_web (w : env) (time_limit : datetime) :
  emits (origin w time_limit) (λ _, True) (_collect_from_web w).
Proof.
  unfold _collect_from_web. apply emits_for_each.
  intros src Hsrc. apply emits_web_page, Hsrc.
Qed.

Lemma emits_add_fallback_news (w : env) (time_limit : datetime) :
  emits (origin w time_limit) (λ _, True) (_add_fallback_news w).
Proof.
  unfold _add_fallback_news.
  eapply emits_bind; [apply emits_now|]. intros t1 [n1 ->].
  eapply emits_bind; [apply emits_now|]. intros t2 [n2 ->].
  eapply emits_bind; [apply emits_now|]. intros t3 [n3 ->].
  apply emits_for_each. intros a Ha.
  apply emits_add_if_unseen. right; right.
  apply elem_of_cons in Ha as [->|Ha]; [exists n1; auto|].
  apply elem_of_cons in Ha as [->|Ha]; [exists n2; auto|].
  apply elem_of_cons in Ha as [->|Ha]; [exists n3; auto|].
  inversion Ha.
Qed.

(** ** Consequences of a sequence of steps *)

Lemma steps_collected P (s s' : state) :
  rtc (step P) s s' →
  ∃ added, collected_news s' = (collected_news s ++ added)%list ∧ Forall P added.
Proof.
  induction 1 as [s|s s1 s2 Hstep _ (added & Heq & Hall)].
  - exists []. split; [symmetry; apply app_nil_r | constructor].
  - destruct Hstep as [s|s a Ha Hnew]; simpl in Heq.
    + exists added. split; assumption.
    + exists (a :: added). split; [|constructor; assumption].
      rewrite Heq, <- app_assoc. reflexivity.
Qed.

Lemma steps_clock P (s s' : state) :
  rtc (step P) s s' → (clock_reads s ≤ clock_reads s')%nat.
Proof.
  induction 1 as [s|s s1 s2 Hstep _ IH]; [lia|].
  destruct Hstep; simpl in IH; lia.
Qed.

Lemma step_consistent P (s s' : state) :
  step P s s' → consistent s → consistent s'.
Proof.
  intros [s0|s0 a Ha Hnew] [Hnd Hseen]; [split; assumption|].
  unfold consistent. simpl. rewrite fmap_app. simpl. split.
  - apply NoDup_app. split; [exact Hnd|]. split.
    + intros u Hu Hin. apply list_elem_of_singleton in Hin as ->.
      apply Hnew, Hseen, Hu.
    + apply NoDup_singleton.
  - intros u. rewrite elem_of_union, elem_of_singleton, elem_of_app,
      list_elem_of_singleton, Hseen. tauto.
Qed.

Lemma steps_consistent P (s s' : state) :
  rtc (step P) s s' → consistent s → consistent s'.
Proof.
  induction 1 as [s|s s1 s2 Hstep _ IH]; [trivial|].
  intros Hs. apply IH. eapply step_consistent; eassumption.
Qed.

Lemma consistent_init : consistent __init__.
Proof.
  split; [constructor|]. intros u. simpl. split; intros Hu.
  - apply not_elem_of_empty in Hu. contradiction.
  - inversion Hu.
Qed.

Lemma steps_nonempty P (s s' : state) :
  rtc (step P) s s' → collected_news s ≠ [] → collected_news s' ≠ [].
Proof.
  intros Hsteps Hne. apply steps_collected in Hsteps as (added & -> & _).
  intros Heq. apply app_eq_nil in Heq as [Heq _]. contradiction.
Qed.

(** ** The stages of [get_ai_news] always return *)

Lemma collect_from_rss_returns (w : env) (time_limit : datetime) (s : state) :
  fst (_collect_from_rss w time_limit s) = Return tt.
Proof.
  unfold _collect_from_rss, rss_feed.
  rewrite (run_for_each_try rss_feeds). reflexivity.
Qed.

Lemma collect_from_web_returns (w : env) (s : state) :
  fst (_collect_from_web w s) = Return tt.
Proof.
  unfold _collect_from_web, web_page.
  rewrite (run_for_each_try web_sources). reflexivity.
Qed.

Lemma add_if_unseen_returns (a : article) (s : state) :
  fst (add_if_unseen a s) = Return tt.
Proof.
  unfold add_if_unseen. rewrite run_bind. unfold get_state.
  case_bool_decide; reflexivity.
Qed.

Lemma for_each_returns {A} (xs : list A) (body : A → M unit) (s : state) :
  (∀ x s', fst (body x s') = Return tt) → fst (for_each xs body s) = Return tt.
Proof.
  intros Hb. revert s. induction xs as [|x xs IH]; intros s; [reflexivity|].
  rewrite run_for_each_cons. specialize (Hb x s).
  destruct (body x s) as [o s']. simpl in Hb. subst o. apply IH.
Qed.

Lemma add_fallback_news_returns (w : env) (s : state) :
  fst (_add_fallback_news w s) = Return tt.
Proof.
  unfold _add_fallback_news, datetime_now. rewrite !run_bind.
  apply for_each_returns. apply add_if_unseen_returns.
Qed.

Lemma add_if_unseen_nonempty (a : article) (s : state) :
  consistent s → collected_news (snd (add_if_unseen a s)) ≠ [].
Proof.
  intros [_ Hseen]. unfold add_if_unseen. rewrite run_bind. unfold get_state.
  case_bool_decide as Hin; simpl.
  - apply Hseen in Hin. intros Heq. rewrite Heq in Hin. inversion Hin.
  - intros Heq. apply app_eq_nil in Heq as [_ Heq]. discriminate.
Qed.

Lemma add_fallback_news_nonempty (w : env) (s : state) :
  consistent s → collected_news (snd (_add_fallback_news w s)) ≠ [].
Proof.
  intros Hs. unfold _add_fallback_news, datetime_now. rewrite !run_bind.
  rewrite run_for_each_cons.
  set (s3 := tick (tick (tick s))).
  assert (Hs3 : consistent s3) by exact Hs.
  match goal with |- context [add_if_unseen ?a s3] =>
    pose proof (add_if_unseen_nonempty a s3 Hs3) as Hne;
    pose proof (add_if_unseen_returns a s3) as Hret;
    destruct (add_if_unseen a s3) as [o s4]; simpl in Hne, Hret; subst o
  end.
  eapply steps_nonempty; [|exact Hne].
  apply (emits_for_each (λ _, True) _ add_if_unseen).
  intros a _. apply emits_add_if_unseen. exact I.
Qed.

(** The shape of every call.  When the cutoff cannot be computed the call
    raises OverflowError after its clock reading.  Otherwise the stages
    run and leave a working set; the call then returns the list computed
    from it, or raises what [_remove_duplicates] raises. *)
Lemma get_ai_news_run (w : env) (limit hours_back : Z) (s : state) :
  match sub_hours (naive (now w (clock_reads s))) hours_back with
  | None => get_ai_news w limit hours_back s = (Raise OverflowError, tick s)
  | Some tl =>
    ∃ s',
      get_ai_news w limit hours_back s =
        (match _remove_duplicates s' with
         | Return unique_news =>
           Return (slice_to limit (_score_and_sort unique_news))
         | Raise e => Raise e
         end, s') ∧
      rtc (step (origin w tl)) s s' ∧
      (consistent s → 1 ≤ limit → collected_news s' ≠ [])
  end.
Proof.
  destruct (sub_hours (naive (now w (clock_reads s))) hours_back) as [tl|]
    eqn:Hcut; unfold get_ai_news; rewrite run_bind; unfold datetime_now at 1;
    cbv beta iota; rewrite run_bind; unfold lift at 1; cbv beta;
    rewrite Hcut; cbn [or_raise]; cbv iota; [|reflexivity].
  rewrite run_bind.
  pose proof (collect_from_rss_returns w tl (tick s)) as R1.
  pose proof (proj1 (emits_collect_from_rss w tl (tick s))) as E1.
  destruct (_collect_from_rss w tl (tick s)) as [o1 s1]. simpl in R1, E1.
  subst o1. rewrite run_bind. unfold get_state at 1. rewrite run_bind.
  assert (Hweb : ∃ s2,
    (if len (collected_news s1) <? limit then _collect_from_web w else mret tt) s1
      = (Return tt, s2) ∧ rtc (step (origin w tl)) s1 s2).
  { destruct (len (collected_news s1) <? limit).
    - pose proof (collect_from_web_returns w s1) as R2.
      pose proof (proj1 (emits_collect_from_web w tl s1)) as E2.
      destruct (_collect_from_web w s1) as [o2 s2]. simpl in R2, E2. subst o2.
      exists s2. split; [reflexivity | exact E2].
    - exists s1. split; [reflexivity | apply rtc_refl]. }
  destruct Hweb as (s2 & -> & E2).
  rewrite run_bind. unfold get_state at 1. rewrite run_bind.
  assert (Hfb : ∃ s3,
    (if len (collected_news s2) <? limit then _add_fallback_news w else mret tt) s2
      = (Return tt, s3) ∧ rtc (step (origin w tl)) s2 s3 ∧
    (consistent s2 → 1 ≤ limit → collected_news s3 ≠ [])).
  { destruct (len (collected_news s2) <? limit) eqn:Hlen.
    - pose proof (add_fallback_news_returns w s2) as R3.
      pose proof (proj1 (emits_add_fallback_news w tl s2)) as E3.
      pose proof (add_fallback_news_nonempty w s2) as N3.
      destruct (_add_fallback_news w s2) as [o3 s3]. simpl in R3, E3, N3.
      subst o3. exists s3. repeat split; [exact E3 | auto].
    - exists s2. repeat split; [apply rtc_refl|].
      intros _ Hlim Heq. rewrite Heq in Hlen. unfold len in Hlen. simpl in Hlen.
      apply Z.ltb_ge in Hlen. lia. }
  destruct Hfb as (s3 & -> & E3 & N3).
  rewrite run_bind. unfold get_state. rewrite run_bind. unfold lift.
  exists s3. split; [destruct (_remove_duplicates s3); reflexivity|]. split.
  - eapply rtc_trans; [apply rtc_once, step_tick|].
    eapply rtc_trans; [exact E1|]. eapply rtc_trans; eassumption.
  - intros Hs Hlim. apply N3; [|exact Hlim].
    eapply steps_consistent; [exact E2|].
    eapply steps_consistent; [exact E1|]. exact Hs.
Qed.


(** ** Slicing *)



Lemma slice_to_negative_length {A} (n : Z) (xs : list A) :
  n < 0 → len (slice_to n xs) = Z.max 0 (len xs + n).
Proof.
  intros Hn. unfold slice_to, len. destruct (0 <=? n) eqn:H0.
  - apply Z.leb_le in H0. lia.
  - rewrite length_take. lia.
Qed.

Lemma slice_to_prefix {A} (n : Z) (xs : list A) :
  ∃ k, slice_to n xs = take k xs.
Proof. unfold slice_to. destruct (0 <=? n); eexists; reflexivity. Qed.

Lemma slice_to_elem_of {A} (n : Z) (xs : list A) (x : A) :
  x ∈ slice_to n xs → x ∈ xs.
Proof.
  destruct (slice_to_prefix n xs) as [k ->]. intros Hx.
  rewrite <- (take_drop k xs). apply elem_of_app. left. exact Hx.
Qed.

Lemma slice_to_nil {A} (n : Z) : slice_to n ([] : list A) = [].
Proof. unfold slice_to. destruct (0 <=? n); apply take_nil. Qed.


(** ** Comparison of strings and of sort keys *)

Lemma compare_antisym (a b : str) :
  PyStr.compare b a = CompOpp (PyStr.compare a b).
Proof.
  revert b. induction a as [|x a IH]; intros [|y b]; simpl; try reflexivity.
  rewrite (N.compare_antisym x y).
  destruct (x ?= y)%N; simpl; [apply IH | reflexivity | reflexivity].
Qed.

Lemma compare_refl (a : str) : PyStr.compare a a = Eq.
Proof.
  induction a as [|x a IH]; simpl; [reflexivity|].
  rewrite N.compare_refl. exact IH.
Qed.

Lemma key_lt_false (a b : article) :
  key_lt a b = false ↔
  score b ≤ score a ∧
  (score a = score b → PyStr.leb (published b) (published a) = true).
Proof.
  unfold key_lt, PyStr.leb. rewrite (compare_antisym (published a) (published b)).
  destruct (score a <? score b) eqn:Hlt; simpl.
  - apply Z.ltb_lt in Hlt. split; [discriminate | lia].
  - apply Z.ltb_ge in Hlt. destruct (score a =? score b) eqn:Heq; simpl.
    + apply Z.eqb_eq in Heq.
      destruct (PyStr.compare (published a) (published b)); simpl;
        (split; intros H;
          [first [discriminate | split; [lia | intros _; reflexivity]]|]);
        try reflexivity.
      destruct H as [_ H]. specialize (H Heq). discriminate.
    + apply Z.eqb_neq in Heq. split; [|reflexivity].
      intros _. split; [lia | intros; contradiction].
Qed.

Lemma key_lt_asym (a b : article) : key_lt a b = true → key_lt b a = false.
Proof.
  unfold key_lt. rewrite (compare_antisym (published a) (published b)).
  destruct (score a <? score b) eqn:H1, (score b <? score a) eqn:H2,
    (score a =? score b) eqn:H3, (score b =? score a) eqn:H4;
    simpl; try reflexivity; try discriminate; try lia;
    destruct (PyStr.compare (published a) (published b)); simpl; congruence.
Qed.

(** ** The stable descending sort *)

Lemma insert_desc_perm (x : article) (l : list article) :
  Permutation (insert_desc x l) (x :: l).
Proof.
  induction l as [|y l IH]; simpl; [reflexivity|].
  destruct (key_lt x y); [|reflexivity].
  rewrite IH. apply Permutation_swap.
Qed.

Lemma sorted_desc_perm (l : list article) : Permutation (sorted_desc l) l.
Proof.
  induction l as [|x l IH]; simpl; [reflexivity|].
  rewrite insert_desc_perm, IH. reflexivity.
Qed.

Lemma insert_desc_hd (x y : article) (l : list article) :
  key_lt x y = true → HdRel in_order y l → HdRel in_order y (insert_desc x l).
Proof.
  intros Hxy Hhd. destruct l as [|z l]; simpl.
  - constructor. apply key_lt_asym in Hxy. unfold in_order.
    destruct (key_lt y x) eqn:E; [|reflexivity]. congruence.
  - destruct (key_lt x z); constructor.
    + inversion Hhd. assumption.
    + unfold in_order. destruct (key_lt y x) eqn:E; [|reflexivity].
      apply key_lt_asym in E. congruence.
Qed.

Lemma insert_desc_sorted (x : article) (l : list article) :
  Sorted in_order l → Sorted in_order (insert_desc x l).
Proof.
  induction 1 as [|y l Hs IH Hhd]; simpl.
  - repeat constructor.
  - destruct (key_lt x y) eqn:Hxy.
    + constructor; [exact IH | apply insert_desc_hd; assumption].
    + constructor; [constructor; assumption|]. constructor. exact Hxy.
Qed.

Lemma sorted_desc_sorted (l : list article) : Sorted in_order (sorted_desc l).
Proof.
  induction l as [|x l IH]; simpl; [constructor|].
  apply insert_desc_sorted, IH.
Qed.

Lemma sorted_take (k : nat) (l : list article) :
  Sorted in_order l → Sorted in_order (take k l).
Proof.
  intros Hs. revert k. induction Hs as [|y l Hs IH Hhd]; intros [|k]; simpl;
    try constructor.
  - apply IH.
  - destruct Hhd as [|z l' Hyz]; destruct k; simpl; constructor. exact Hyz.
Qed.

Lemma sorted_adjacent (l : list article) (i : nat) (a b : article) :
  Sorted in_order l → l !! i = Some a → l !! S i = Some b → in_order a b.
Proof.
  intros Hs. revert i. induction Hs as [|y l Hs IH Hhd]; intros i Ha Hb.
  - discriminate.
  - destruct i as [|i]; simpl in *.
    + injection Ha as ->. destruct Hhd as [|z l' Hyz]; [discriminate|].
      simpl in Hb. injection Hb as ->. exact Hyz.
    + eapply IH; eassumption.
Qed.

(** ** Removal of duplicates *)

Lemma title_hash_encode (a : article) :
  title_hash a = None ↔ encode (List.firstn 30 (title a)) = None.
Proof.
  unfold title_hash. destruct (encode (List.firstn 30 (title a)));
    split; intros H; [discriminate | discriminate | reflexivity | reflexivity].
Qed.

(** One round of the loop, read backwards from its result. *)
Lemma remove_duplicates_loop_cons (a : article) (rest : list article)
    (seen : gset str) (l : list article) :
  remove_duplicates_loop (a :: rest) seen = Return l →
  ∃ h, title_hash a = Some h ∧
       ((h ∈ seen ∧ remove_duplicates_loop rest seen = Return l) ∨
        ((h ∉ seen) ∧
         ∃ l', remove_duplicates_loop rest ({[ h ]} ∪ seen) = Return l' ∧
               l = a :: l')).
Proof.
  simpl. destruct (title_hash a) as [h|]; [|discriminate].
  intros H. exists h. split; [reflexivity|].
  case_bool_decide as Hin; simpl in H.
  - left. split; assumption.
  - right. split; [exact Hin|].
    destruct (remove_duplicates_loop rest ({[ h ]} ∪ seen)) as [l'|e];
      [|discriminate].
    injection H as <-. exists l'. split; reflexivity.
Qed.

Lemma remove_duplicates_loop_elem_of (news : list article) (seen : gset str)
    (l : list article) (a : article) :
  remove_duplicates_loop news seen = Return l → a ∈ l → a ∈ news.
Proof.
  revert seen l. induction news as [|b news IH]; intros seen l Hl Ha.
  - injection Hl as <-. inversion Ha.
  - apply remove_duplicates_loop_cons in Hl
      as (h & _ & [[_ Hl] | (_ & l' & Hl & ->)]).
    + right. eapply IH; eassumption.
    + apply elem_of_cons in Ha as [->|Ha]; [left|].
      right. eapply IH; eassumption.
Qed.

Lemma remove_duplicates_loop_sublist (news : list article) (seen : gset str)
    (l : list article) :
  remove_duplicates_loop news seen = Return l → sublist l news.
Proof.
  revert seen l. induction news as [|b news IH]; intros seen l Hl.
  - injection Hl as <-. constructor.
  - apply remove_duplicates_loop_cons in Hl
      as (h & _ & [[_ Hl] | (_ & l' & Hl & ->)]).
    + apply sublist_cons. eapply IH, Hl.
    + apply sublist_skip. eapply IH, Hl.
Qed.

Lemma remove_duplicates_loop_fresh (news : list article) (seen : gset str)
    (l : list article) (a : article) :
  remove_duplicates_loop news seen = Return l → a ∈ l →
  ∃ h, title_hash a = Some h ∧ h ∉ seen.
Proof.
  revert seen l. induction news as [|b news IH]; intros seen l Hl Ha.
  - injection Hl as <-. inversion Ha.
  - apply remove_duplicates_loop_cons in Hl
      as (h & Hh & [[_ Hl] | (Hnew & l' & Hl & ->)]).
    + eapply IH; eassumption.
    + apply elem_of_cons in Ha as [->|Ha]; [exists h; auto|].
      destruct (IH _ _ Hl Ha) as (h' & Hh' & Hnew').
      exists h'. split; [exact Hh'|].
      intros Hin. apply Hnew', elem_of_union. right. exact Hin.
Qed.

Lemma remove_duplicates_loop_NoDup (news : list article) (seen : gset str)
    (l : list article) :
  remove_duplicates_loop news seen = Return l → NoDup (title_hash <$> l).
Proof.
  revert seen l. induction news as [|b news IH]; intros seen l Hl.
  - injection Hl as <-. constructor.
  - apply remove_duplicates_loop_cons in Hl
      as (h & Hh & [[_ Hl] | (Hnew & l' & Hl & ->)]).
    + eapply IH, Hl.
    + simpl. constructor; [|eapply IH, Hl].
      intros Hin. apply list_elem_of_fmap in Hin as (c & Heq & Hc).
      destruct (remove_duplicates_loop_fresh _ _ _ _ Hl Hc) as (h' & Hh' & Hnew').
      apply Hnew', elem_of_union. left. apply elem_of_singleton. congruence.
Qed.

(** Every hash of the working set that was not seen before has its
    representative among the kept records. *)
Lemma remove_duplicates_loop_covers (news : list article) (seen : gset str)
    (l : list article) (a : article) (h : str) :
  remove_duplicates_loop news seen = Return l →
  a ∈ news → title_hash a = Some h → h ∉ seen →
  ∃ b, b ∈ l ∧ title_hash b = Some h.
Proof.
  revert seen l. induction news as [|c news IH]; intros seen l Hl Ha Hh Hnew.
  - inversion Ha.
  - apply remove_duplicates_loop_cons in Hl
      as (hc & Hhc & [[Hseen Hl] | (Hfresh & l' & Hl & ->)]).
    + apply elem_of_cons in Ha as [->|Ha]; [congruence|].
      eapply IH; eassumption.
    + destruct (decide (h = hc)) as [->|Hne].
      * exists c. split; [left | exact Hhc].
      * apply elem_of_cons in Ha as [->|Ha]; [congruence|].
        destruct (IH _ _ Hl Ha Hh) as (b & Hb & Hbh).
        { rewrite elem_of_union, elem_of_singleton. tauto. }
        exists b. split; [right; exact Hb | exact Hbh].
Qed.


Lemma remove_duplicates_loop_raises (news : list article) (seen : gset str)
    (e : exn) :
  remove_duplicates_loop news seen = Raise e →
  e = UnicodeEncodeError ∧ ∃ a, a ∈ news ∧ title_hash a = None.
Proof.
  revert seen. induction news as [|a news IH]; intros seen; simpl;
    [discriminate|].
  destruct (title_hash a) as [h|] eqn:Hh.
  - intros H.
    assert (Hrest : ∃ seen', remove_duplicates_loop news seen' = Raise e).
    { case_bool_decide; simpl in H; [exists seen; exact H|].
      exists ({[ h ]} ∪ seen).
      destruct (remove_duplicates_loop news ({[ h ]} ∪ seen));
        [discriminate | exact H]. }
    destruct Hrest as (seen' & Hrest).
    destruct (IH _ Hrest) as (-> & b & Hb & Hnone).
    split; [reflexivity|]. exists b. split; [right; exact Hb | exact Hnone].
  - intros [= <-]. split; [reflexivity|]. exists a. split; [left | exact Hh].
Qed.

Lemma remove_duplicates_loop_encodable (news : list article) (seen : gset str)
    (l : list article) :
  remove_duplicates_loop news seen = Return l →
  Forall (λ a, title_hash a ≠ None) news.
Proof.
  revert seen l. induction news as [|b news IH]; intros seen l Hl;
    [constructor|].
  apply remove_duplicates_loop_cons in Hl
    as (h & Hh & [[_ Hl] | (_ & l' & Hl & _)]);
    (constructor; [congruence | eapply IH, Hl]).
Qed.

(** The loop in accumulation order: the record appended last is kept
    exactly when its hash is new. *)
Lemma remove_duplicates_loop_snoc (pre : list article) (a : article)
    (seen : gset str) :
  remove_duplicates_loop (pre ++ [a]) seen =
  match remove_duplicates_loop pre seen, title_hash a with
  | Return l, Some h =>
    Return (l ++ if bool_decide (h ∈ seen ∨ Some h ∈ (title_hash <$> pre))
                 then [] else [a])%list
  | Return _, None => Raise UnicodeEncodeError
  | Raise e, _ => Raise e
  end.
Proof.
  revert seen. induction pre as [|b pre IH]; intros seen.
  - simpl. destruct (title_hash a) as [h|]; [|reflexivity].
    case_bool_decide as H1; case_bool_decide as H2; simpl; try reflexivity.
    + exfalso. apply H2. left. exact H1.
    + exfalso. destruct H2 as [H2|H2]; [contradiction | inversion H2].
  - cbn [app remove_duplicates_loop].
    destruct (title_hash b) as [hb|] eqn:Hb; [|reflexivity].
    case_bool_decide as Hin; cbn [negb]; cbv iota; rewrite IH.
    + destruct (remove_duplicates_loop pre seen) as [l|e]; [|reflexivity].
      destruct (title_hash a) as [h|]; [|reflexivity].
      erewrite bool_decide_ext; [reflexivity|].
      rewrite fmap_cons, Hb, elem_of_cons. split; [tauto|].
      intros [H|[H|H]]; [tauto | injection H as ->; tauto | tauto].
    + destruct (remove_duplicates_loop pre ({[ hb ]} ∪ seen)) as [l|e];
        [|reflexivity].
      destruct (title_hash a) as [h|]; [|reflexivity].
      cbn [app]. erewrite bool_decide_ext; [reflexivity|].
      rewrite fmap_cons, Hb, elem_of_cons, elem_of_union, elem_of_singleton.
      split; [intros [[H|H]|H]; [right; left; congruence | tauto | tauto]|].
      intros [H|[H|H]]; [tauto | injection H as ->; tauto | tauto].
Qed.


(** ** Scoring *)

Lemma keyword_fold (title : str) (keywords : list str) (acc : Z) :
  fold_left (λ score keyword, if contains keyword title then score + 10 else score)
    keywords acc
  = acc + 10 * len (List.filter (λ keyword, contains keyword title) keywords).
Proof.
  revert acc. induction keywords as [|k keywords IH]; intros acc; simpl.
  - unfold len. simpl. lia.
  - rewrite IH. destruct (contains k title); unfold len; simpl; lia.
Qed.

Lemma compute_score_spec (a : article) :
  compute_score a =
  keyword_points (title a) + trusted_points (source a)
  + summary_points (summary a) + url_points (url a).
Proof.
  unfold compute_score, keyword_score, keyword_points, trusted_points,
    summary_points, url_points.
  rewrite keyword_fold.
  destruct (existsb _ trusted_sources), (100 <? len (summary a)),
    (truthy (url a) && startswith (url a) http); lia.
Qed.

Lemma points_nonneg (a : article) :
  0 ≤ keyword_points (title a) ∧ 0 ≤ trusted_points (source a) ∧
  0 ≤ summary_points (summary a) ∧ 0 ≤ url_points (url a).
Proof.
  unfold keyword_points, trusted_points, summary_points, url_points, len.
  destruct (existsb _ trusted_sources), (100 <? _), (truthy (url a) && _); lia.
Qed.

Lemma score_and_sort_elem_of (news : list article) (a : article) :
  a ∈ _score_and_sort news ↔
  ∃ a0, a0 ∈ news ∧ a = set_score a0 (compute_score a0).
Proof.
  unfold _score_and_sort. rewrite (sorted_desc_perm _).
  rewrite list_elem_of_fmap. split; intros (a0 & H1 & H2); exists a0; auto.
Qed.


Lemma score_and_sort_sorted (news : list article) :
  Sorted in_order (_score_and_sort news).
Proof. apply sorted_desc_sorted. Qed.

(** ** From the returned list back to the record sources *)

(** What a call returns is computed from a list of unique records: the
    result of [_remove_duplicates] on the working set when the call
    returns, and the empty list when it raises. *)
Lemma returned_run (w : env) (limit hours_back : Z) (s : state) :
  ∃ unique_news,
    returned (get_ai_news w limit hours_back s)
    = slice_to limit (_score_and_sort unique_news) ∧
    (unique_news = [] ∨
     _remove_duplicates (snd (get_ai_news w limit hours_back s))
     = Return unique_news).
Proof.
  pose proof (get_ai_news_run w limit hours_back s) as H.
  destruct (sub_hours (naive (now w (clock_reads s))) hours_back) as [tl|].
  - destruct H as (s' & -> & _). unfold returned. cbn [fst snd].
    destruct (_remove_duplicates s') as [u|e].
    + exists u. split; [reflexivity | right; reflexivity].
    + exists []. split; [symmetry; apply slice_to_nil | left; reflexivity].
  - rewrite H. exists [].
    split; [symmetry; apply slice_to_nil | left; reflexivity].
Qed.

Lemma returned_elem_of (w : env) (limit hours_back : Z) (s : state) (a : article) :
  a ∈ returned (get_ai_news w limit hours_back s) →
  ∃ a0, a0 ∈ collected_news (snd (get_ai_news w limit hours_back s)) ∧
        a = set_score a0 (compute_score a0).
Proof.
  destruct (returned_run w limit hours_back s) as (u & -> & Hu).
  intros Ha. apply slice_to_elem_of in Ha.
  apply score_and_sort_elem_of in Ha as (a0 & Ha0 & ->).
  exists a0. split; [|reflexivity].
  destruct Hu as [->|Hu]; [inversion Ha0|].
  eapply remove_duplicates_loop_elem_of; eassumption.
Qed.

Lemma working_set_origin (w : env) (limit hours_back : Z) (s : state) (a : article) :
  a ∈ collected_news (snd (get_ai_news w limit hours_back s)) →
  a ∈ collected_news s ∨
  ∃ tl, sub_hours (naive (now w (clock_reads s))) hours_back = Some tl ∧
        origin w tl a.
Proof.
  pose proof (get_ai_news_run w limit hours_back s) as H.
  destruct (sub_hours (naive (now w (clock_reads s))) hours_back) as [tl|].
  - destruct H as (s' & -> & Hsteps & _). cbn [snd].
    apply steps_collected in Hsteps as (added & -> & Hall).
    rewrite elem_of_app. intros [Ha|Ha]; [left; exact Ha | right].
    exists tl. split; [reflexivity|].
    rewrite Forall_forall in Hall. apply Hall, Ha.
  - rewrite H. cbn [snd]. intros Ha. left. exact Ha.
Qed.

Lemma fresh_working_set_origin (w : env) (limit hours_back : Z) (a : article) :
  a ∈ collected_news (snd (get_ai_news w limit hours_back __init__)) →
  ∃ tl, sub_hours (naive (now w 0)) hours_back = Some tl ∧ origin w tl a.
Proof.
  intros Ha. apply working_set_origin in Ha as [Ha|Ha]; [inversion Ha | exact Ha].
Qed.


(** ** Titles that can be encoded *)



Section Kept.
Context (P : N → Prop) (Hspace : P 32%N).







End Kept.




(** ** C1: length of the returned list *)







(** ** C2: order of the returned list *)

(** C2.  In the list returned by any call, for every adjacent pair of
    records the score of the first is at least the score of the second, and
    when the scores are equal the [published] string of the first is at
    least that of the second. *)
Theorem result_sorted_descending (w : env) (limit hours_back : Z) (s : state)
    (i : nat) (a b : article) :
  returned (get_ai_news w limit hours_back s) !! i = Some a →
  returned (get_ai_news w limit hours_back s) !! S i = Some b →
  score b ≤ score a ∧
  (score a = score b → PyStr.leb (published b) (published a) = true).
Proof.
  destruct (returned_run w limit hours_back s) as (unique_news & -> & _).
  destruct (slice_to_prefix limit (_score_and_sort unique_news)) as [k ->].
  intros Ha Hb. apply key_lt_false.
  eapply sorted_adjacent; [|exact Ha | exact Hb].
  apply sorted_take, score_and_sort_sorted.
Qed.

Lemma result_sorted_descending_witness :
  ∃ a b,
    returned (get_ai_news Examples.newsroom 10 48 __init__) !! 0%nat = Some a ∧
    returned (get_ai_news Examples.newsroom 10 48 __init__) !! 1%nat = Some b ∧
    score a = 17 ∧ score b = 17 ∧
    PyStr.leb (published b) (published a) = true.
Proof.
  eexists _, _. split; [vm_compute; reflexivity|].
  split; [vm_compute; reflexivity|].
  split; [reflexivity|]. split; [reflexivity|].
  apply (result_sorted_descending Examples.newsroom 10 48 __init__ 0);
    vm_compute; reflexivity.
Defined.

(** ** C6: the score *)

(** C6.  Every returned record carries the score given by the additive
    rule, a function of its title, source, summary and URL alone: 10 for
    each listed keyword that occurs in the title, 5 for a trusted source
    name, 3 for a summary of more than 100 characters, 2 for a URL that is
    not empty and starts with "http"; none of the four parts is negative. *)
Theorem score_is_additive (w : env) (limit hours_back : Z) (s : state)
    (a : article) :
  a ∈ returned (get_ai_news w limit hours_back s) →
  score a = keyword_points (title a) + trusted_points (source a)
            + summary_points (summary a) + url_points (url a) ∧
  0 ≤ keyword_points (title a) ∧ 0 ≤ trusted_points (source a) ∧
  0 ≤ summary_points (summary a) ∧ 0 ≤ url_points (url a).
Proof.
  intros Ha. apply returned_elem_of in Ha as (a0 & _ & ->).
  split; [|apply points_nonneg]. simpl. apply compute_score_spec.
Qed.

Lemma score_is_additive_witness :
  ∃ a, a ∈ returned (get_ai_news Examples.newsroom 10 48 __init__) ∧
       title a = py "ChatGPT update" ∧
       score a = 17 ∧
       keyword_points (title a) = 10 ∧ trusted_points (source a) = 5 ∧
       summary_points (summary a) = 0 ∧ url_points (url a) = 2.
Proof.
  eexists. split; [vm_compute; left|].
  split; [vm_compute; reflexivity|].
  split.
  - etransitivity;
      [apply (score_is_additive Examples.newsroom 10 48 __init__);
       vm_compute; left | vm_compute; reflexivity].
  - vm_compute. repeat split; reflexivity.
Defined.

(** ** C10: URLs of the working set *)

Lemma origin_url (w : env) (time_limit : datetime) (a : article) :
  origin w time_limit a → url a ≠ [].
Proof.
  intros [Hf|[Hw|Hb]].
  - destruct Hf as (f & entries & e & stamp & _ & _ & _ & _ & _ & Hurl & _).
    exact Hurl.
  - destruct Hw as (src & resp & c & text & _ & _ & _ & _ & _ & _ & _ & Hurl & _).
    exact Hurl.
  - destruct Hb as (n & [-> | [-> | ->]]); discriminate.
Qed.

(** C10.  When the records already collected have a URL, every record of
    the working set after a call, and every record the call returns, has a
    URL that is not empty. *)
Theorem every_record_has_url (w : env) (limit hours_back : Z) (s : state) :
  Forall (λ a, url a ≠ []) (collected_news s) →
  Forall (λ a, url a ≠ [])
    (collected_news (snd (get_ai_news w limit hours_back s))) ∧
  Forall (λ a, url a ≠ []) (returned (get_ai_news w limit hours_back s)).
Proof.
  intros Hs.
  assert (Hws : ∀ a, a ∈ collected_news (snd (get_ai_news w limit hours_back s))
                     → url a ≠ []).
  { intros a Ha. apply working_set_origin in Ha as [Ha|(tl & _ & Ha)].
    - rewrite Forall_forall in Hs. apply Hs, Ha.
    - eapply origin_url, Ha. }
  split; apply Forall_forall; [exact Hws|].
  intros a Ha. apply returned_elem_of in Ha as (a0 & Ha0 & ->).
  simpl. apply Hws, Ha0.
Qed.

Lemma every_record_has_url_witness :
  Forall (λ a, url a ≠ [])
    (collected_news (snd (get_ai_news Examples.newsroom 10 48 __init__))) ∧
  Forall (λ a, url a ≠ [])
    (returned (get_ai_news Examples.newsroom 10 48 __init__)).
Proof.
  apply (every_record_has_url Examples.newsroom 10 48 __init__).
  simpl. constructor.
Defined.

(** ** C9: failures of sources and entries stay inside the call *)

Lemma rss_feed_returns (w : env) (time_limit : datetime) (f : feed_info) s :
  fst (rss_feed w time_limit f s) = Return tt.
Proof. reflexivity. Qed.

Lemma web_page_returns (w : env) (src : web_source) (s : state) :
  fst (web_page w src s) = Return tt.
Proof. reflexivity. Qed.

Lemma rss_feed_fetch_raises (w : env) (time_limit : datetime) (f : feed_info)
    (e : exn) (s : state) :
  feedparser_parse w (feed_url f) = Raise e →
  rss_feed w time_limit f s = (Return tt, s).
Proof.
  intros H. unfold rss_feed. rewrite run_try, run_bind. unfold lift.
  rewrite H. reflexivity.
Qed.

Lemma web_page_fetch_fails (w : env) (src : web_source) (s : state) :
  match requests_get w (web_url src) with
  | Raise _ => True
  | Return resp => status_code resp ≠ 200
  end →
  web_page w src s = (Return tt, s).
Proof.
  intros H. unfold web_page. rewrite run_try, run_bind. unfold lift.
  destruct (requests_get w (web_url src)) as [resp|e]; [|reflexivity].
  apply Z.eqb_neq in H. rewrite H. reflexivity.
Qed.

Lemma add_if_new_returns (a : article) (s : state) :
  fst (add_if_new a s) = Return tt.
Proof.
  unfold add_if_new. rewrite run_bind. unfold get_state.
  destruct (truthy (url a) && _); reflexivity.
Qed.

Lemma rss_entry_undated (w : env) (time_limit : datetime) (f : feed_info)
    (e : entry) (s : state) :
  _parse_date w (entry_get e "published") = None →
  rss_entry w time_limit f e s =
  if filtered_out f (entry_get e "title") then (Return tt, s)
  else add_if_new
         (article_of_entry f e (isoformat (naive (now w (clock_reads s)))))
         (tick s).
Proof.
  intros H. unfold rss_entry. rewrite H. unfold older_than.
  rewrite run_bind, run_ret.
  destruct (filtered_out f (entry_get e "title")); reflexivity.
Qed.


(** What the handlers of the two collectors contain.  The loop over the
    feeds and the loop over the pages run every source, each from the state
    the previous one left, and each source returns whether its body raised
    or not; a feed whose fetch raises, and a page whose request raises or is
    not answered with 200, leave the state as it was; an entry whose date
    matches no format is processed without an exception, and a container
    without a title element is skipped. *)
Lemma collectors_contain_failures (w : env) :
  (∀ tl s0, _collect_from_rss w tl s0 =
            (Return tt, fold_left (λ s' f, snd (rss_feed w tl f s')) rss_feeds s0)) ∧
  (∀ s0, _collect_from_web w s0 =
         (Return tt, fold_left (λ s' src, snd (web_page w src s')) web_sources s0)) ∧
  (∀ tl f s0, fst (rss_feed w tl f s0) = Return tt) ∧
  (∀ src s0, fst (web_page w src s0) = Return tt) ∧
  (∀ tl f e s0, feedparser_parse w (feed_url f) = Raise e →
                rss_feed w tl f s0 = (Return tt, s0)) ∧
  (∀ src s0, match requests_get w (web_url src) with
             | Raise _ => True
             | Return resp => status_code resp ≠ 200
             end → web_page w src s0 = (Return tt, s0)) ∧
  (∀ tl f e s0, _parse_date w (entry_get e "published") = None →
                fst (rss_entry w tl f e s0) = Return tt) ∧
  (∀ src c s0, title_elem c = None → web_container w src c s0 = (Return tt, s0)).
Proof.
  split.
  { intros tl s0. unfold _collect_from_rss.
    pose proof (run_for_each_try rss_feeds
      (λ f, entries ← lift (feedparser_parse w (feed_url f));
            match entries with
            | [] => mret tt
            | _ => for_each (List.firstn 10 entries) (rss_entry w tl f)
            end) s0) as H.
    exact H. }
  split.
  { intros s0. unfold _collect_from_web.
    pose proof (run_for_each_try web_sources
      (λ src, resp ← lift (requests_get w (web_url src));
              if negb (status_code resp =? 200) then mret tt
              else for_each (List.firstn 5 (containers resp)) (web_container w src))
      s0) as H.
    exact H. }
  split; [intros; apply rss_feed_returns|].
  split; [intros; apply web_page_returns|].
  split; [intros; eapply rss_feed_fetch_raises; eassumption|].
  split; [intros; apply web_page_fetch_fails; assumption|].
  split.
  - intros tl f e s0 H. rewrite (rss_entry_undated w tl f e s0 H).
    destruct (filtered_out f (entry_get e "title")); [reflexivity|].
    apply add_if_new_returns.
  - intros src c s0 H. unfold web_container. rewrite H. reflexivity.
Qed.

(** A title of the working set that cannot be encoded makes the call
    raise, whatever else was collected. *)
Lemma unencodable_title_raises (w : env) (limit hours_back : Z) (s : state)
    (tl : datetime) (a : article) :
  sub_hours (naive (now w (clock_reads s))) hours_back = Some tl →
  a ∈ collected_news (snd (get_ai_news w limit hours_back s)) →
  encode (List.firstn 30 (title a)) = None →
  fst (get_ai_news w limit hours_back s) = Raise UnicodeEncodeError.
Proof.
  intros Hcut Ha Hnone.
  pose proof (get_ai_news_run w limit hours_back s) as H. rewrite Hcut in H.
  destruct H as (s' & Hrun & _). rewrite Hrun in Ha |- *. cbn [fst snd] in *.
  destruct (_remove_duplicates s') as [u|e] eqn:Hu.
  - exfalso. apply remove_duplicates_loop_encodable in Hu.
    rewrite Forall_forall in Hu. apply (Hu a Ha).
    apply title_hash_encode, Hnone.
  - apply remove_duplicates_loop_raises in Hu as (-> & _). reflexivity.
Qed.

(** C9 (defect of the code).  In [malformed] the first page is answered
    with status 200 and one container, whose title text ends in the lone
    surrogate U+D800 and holds the keyword AI.  The page is processed
    without an exception, its handler is not entered, and the record, with
    the cleaned title, enters the working set; the three fallback articles
    follow.  Then [_remove_duplicates], which stands in no handler, hashes
    the title: the call raises UnicodeEncodeError past its boundary. *)
Theorem malformed_title_escapes :
  web_container Examples.malformed Examples.ledge Examples.container_surrogate
    __init__
  = (Return tt,
     appended {| title := Examples.surrogate_title;
                 url := py "https://ledge.ai/news/2";
                 summary := (Examples.surrogate_title ++ synthesized_suffix)%list;
                 source := py "AI News Japan";
                 published := py "2024-05-01T12:00:00";
                 score := 0 |} (tick __init__)) ∧
  title <$> collected_news (snd (get_ai_news Examples.malformed 5 48 __init__))
  = [Examples.surrogate_title; title (fallback_1 []); title (fallback_2 []);
     title (fallback_3 [])] ∧
  encode (List.firstn 30 Examples.surrogate_title) = None ∧
  fst (get_ai_news Examples.malformed 5 48 __init__) = Raise UnicodeEncodeError.
Proof.
  split; [vm_compute; reflexivity|].
  split; [vm_compute; reflexivity|].
  split; [reflexivity|].
  vm_compute. reflexivity.
Qed.

(** ** C4: the date test of the feed entries *)






(** ** C3: what counts as a duplicate *)

Lemma working_set_consistent (w : env) (limit hours_back : Z) (s : state) :
  consistent s → consistent (snd (get_ai_news w limit hours_back s)).
Proof.
  intros Hs. pose proof (get_ai_news_run w limit hours_back s) as H.
  destruct (sub_hours (naive (now w (clock_reads s))) hours_back) as [tl|].
  - destruct H as (s' & -> & Hsteps & _).
    simpl. eapply steps_consistent; eassumption.
  - rewrite H. exact Hs.
Qed.


(** C3 (amended).  URLs are compared when a record is inserted: from a
    consistent collector the working set never holds two records with the
    same URL.  The deduplication stage compares only the MD5 hash of the
    first 30 characters of the title, whatever the URLs are: when it
    returns, it has kept the records in accumulation order, a record being
    kept exactly when no earlier record of the working set has the same
    hash, so that the kept records have pairwise different hashes and every
    record of the working set has a kept record with its hash; two records
    whose titles agree on the first 30 characters have the same hash. *)
Theorem dedup_by_title_hash :
  (∀ w limit hours_back s,
     consistent s →
     NoDup (url <$> collected_news (snd (get_ai_news w limit hours_back s)))) ∧
  (∀ s unique_news,
     _remove_duplicates s = Return unique_news →
     sublist unique_news (collected_news s) ∧
     NoDup (title_hash <$> unique_news)) ∧
  (∀ s unique_news a,
     _remove_duplicates s = Return unique_news →
     a ∈ collected_news s →
     ∃ b, b ∈ unique_news ∧ title_hash b = title_hash a) ∧
  (∀ s s' a,
     collected_news s' = (collected_news s ++ [a])%list →
     _remove_duplicates s' =
     match _remove_duplicates s, title_hash a with
     | Return unique_news, Some h =>
       Return (unique_news ++
               if bool_decide (Some h ∈ (title_hash <$> collected_news s))
               then [] else [a])%list
     | Return _, None => Raise UnicodeEncodeError
     | Raise e, _ => Raise e
     end) ∧
  (∀ a b, List.firstn 30 (title a) = List.firstn 30 (title b) →
          title_hash a = title_hash b).
Proof.
  split.
  { intros w limit hours_back s Hs.
    apply (working_set_consistent w limit hours_back s Hs). }
  split.
  { intros s u Hu. split; [eapply remove_duplicates_loop_sublist, Hu
                          | eapply remove_duplicates_loop_NoDup, Hu]. }
  split.
  { intros s u a Hu Ha.
    pose proof (remove_duplicates_loop_encodable _ _ _ Hu) as Henc.
    rewrite Forall_forall in Henc. specialize (Henc a Ha).
    destruct (title_hash a) as [h|] eqn:Hh; [|contradiction].
    eapply remove_duplicates_loop_covers;
      [exact Hu | exact Ha | exact Hh | apply not_elem_of_empty]. }
  split.
  { intros s s' a Heq. unfold _remove_duplicates.
    rewrite Heq, remove_duplicates_loop_snoc.
    destruct (remove_duplicates_loop (collected_news s) ∅) as [u|e];
      [|reflexivity].
    destruct (title_hash a) as [h|]; [|reflexivity].
    erewrite bool_decide_ext; [reflexivity|].
    split; [intros [H|H]; [|exact H] | intros H; right; exact H].
    apply not_elem_of_empty in H. contradiction. }
  intros a b Heq. unfold title_hash. rewrite Heq. reflexivity.
Qed.


Lemma dedup_by_title_hash_witness :
  NoDup (url <$> collected_news
           (snd (get_ai_news Examples.newsroom 10 48 __init__))).
Proof.
  apply (proj1 dedup_by_title_hash Examples.newsroom 10 48 __init__).
  apply consistent_init.
Defined.

(** C3 as stated fails: the first feed of [newsroom] gives two entries with
    the title "ChatGPT update" and the links https://a.example/1 and
    https://a.example/2.  Both enter the working set, their URLs being
    different and not empty; the second is merged into the first and is
    missing from the returned list. *)
Lemma dedup_merges_distinct_urls :
  py "https://a.example/1" ≠ [] ∧ py "https://a.example/2" ≠ [] ∧
  py "https://a.example/1" ≠ py "https://a.example/2" ∧
  url <$> collected_news (snd (get_ai_news Examples.newsroom 4 48 __init__))
    = [py "https://a.example/1"; py "https://a.example/2";
       py "https://a.example/3"; py "https://a.example/5"] ∧
  url <$> returned (get_ai_news Examples.newsroom 4 48 __init__)
    = [py "https://a.example/1"; py "https://a.example/5";
       py "https://a.example/3"].
Proof.
  repeat split; try (vm_compute; discriminate); vm_compute; reflexivity.
Qed.

(** ** C5: the call in which no source gives a record *)

Lemma rss_feed_no_entries (w : env) (time_limit : datetime) (f : feed_info) s :
  no_entries (feedparser_parse w (feed_url f)) →
  rss_feed w time_limit f s = (Return tt, s).
Proof.
  intros H. unfold rss_feed. rewrite run_try, run_bind. unfold lift.
  destruct (feedparser_parse w (feed_url f)) as [entries|e]; [|reflexivity].
  simpl in H. subst entries. reflexivity.
Qed.

Lemma web_page_no_containers (w : env) (src : web_source) (s : state) :
  no_containers (requests_get w (web_url src)) →
  web_page w src s = (Return tt, s).
Proof.
  intros H. unfold web_page. rewrite run_try, run_bind. unfold lift.
  destruct (requests_get w (web_url src)) as [resp|e]; [|reflexivity].
  simpl in H. destruct (status_code resp =? 200) eqn:Hst; [|reflexivity].
  destruct H as [H|H]; [apply Z.eqb_eq in Hst; contradiction|].
  simpl. rewrite H. reflexivity.
Qed.

Lemma for_each_unchanged {A} (xs : list A) (body : A → M unit) (s : state) :
  (∀ x, x ∈ xs → body x s = (Return tt, s)) →
  for_each xs body s = (Return tt, s).
Proof.
  induction xs as [|x xs IH]; intros Hb; [reflexivity|].
  rewrite run_for_each_cons, (Hb x) by left.
  apply IH. intros y Hy. apply Hb. right. exact Hy.
Qed.

Lemma add_if_unseen_new (a : article) (s : state) :
  url a ∉ seen_urls s → add_if_unseen a s = (Return tt, appended a s).
Proof.
  intros H. unfold add_if_unseen. rewrite run_bind. unfold get_state.
  rewrite bool_decide_eq_false_2 by exact H. reflexivity.
Qed.

Lemma fallback_on_empty (w : env) (s : state) :
  collected_news s = [] → seen_urls s = ∅ →
  collected_news (snd (_add_fallback_news w s)) =
  [ fallback_1 (isoformat (naive (now w (clock_reads s))));
    fallback_2 (isoformat (naive (now w (S (clock_reads s)))));
    fallback_3 (isoformat (naive (now w (S (S (clock_reads s)))))) ].
Proof.
  intros Hnews Hseen. unfold _add_fallback_news, datetime_now.
  rewrite !run_bind.
  change (clock_reads (tick s)) with (S (clock_reads s)).
  change (clock_reads (tick (tick s))) with (S (S (clock_reads s))).
  generalize (isoformat (naive (now w (clock_reads s)))) as t1.
  generalize (isoformat (naive (now w (S (clock_reads s))))) as t2.
  generalize (isoformat (naive (now w (S (S (clock_reads s)))))) as t3.
  intros t3 t2 t1. set (s3 := tick (tick (tick s))).
  assert (H3 : seen_urls s3 = ∅) by exact Hseen.
  assert (N3 : collected_news s3 = []) by exact Hnews.
  rewrite run_for_each_cons, add_if_unseen_new.
  2:{ rewrite H3. apply not_elem_of_empty. }
  rewrite run_for_each_cons, add_if_unseen_new.
  2:{ simpl. rewrite Hseen, elem_of_union, elem_of_singleton.
      intros [H|H]; [discriminate | apply not_elem_of_empty in H; exact H]. }
  rewrite run_for_each_cons, add_if_unseen_new.
  2:{ simpl. rewrite Hseen, !elem_of_union, !elem_of_singleton.
      intros [H|[H|H]]; [discriminate | discriminate |
                         apply not_elem_of_empty in H; exact H]. }
  simpl. rewrite Hnews. reflexivity.
Qed.

Lemma fallback_unique (t1 t2 t3 : str) :
  remove_duplicates_loop [fallback_1 t1; fallback_2 t2; fallback_3 t3] ∅
  = Return [fallback_1 t1; fallback_2 t2; fallback_3 t3].
Proof. vm_compute. reflexivity. Qed.

Lemma fallback_ranking (t1 t2 t3 : str) :
  _score_and_sort [fallback_1 t1; fallback_2 t2; fallback_3 t3]
  = set_score (fallback_1 t1) 12
    :: (if PyStr.leb t3 t2
        then [set_score (fallback_2 t2) 2; set_score (fallback_3 t3) 2]
        else [set_score (fallback_3 t3) 2; set_score (fallback_2 t2) 2]).
Proof.
  unfold _score_and_sort.
  change (List.map (λ a, set_score a (compute_score a))
            [fallback_1 t1; fallback_2 t2; fallback_3 t3])
    with [set_score (fallback_1 t1) (compute_score (fallback_1 t1));
          set_score (fallback_2 t2) (compute_score (fallback_2 t2));
          set_score (fallback_3 t3) (compute_score (fallback_3 t3))].
  assert (H1 : compute_score (fallback_1 t1) = 12) by (vm_compute; reflexivity).
  assert (H2 : compute_score (fallback_2 t2) = 2) by (vm_compute; reflexivity).
  assert (H3 : compute_score (fallback_3 t3) = 2) by (vm_compute; reflexivity).
  rewrite H1, H2, H3. unfold PyStr.leb. rewrite (compare_antisym t2 t3).
  unfold sorted_desc, insert_desc, key_lt. simpl score. simpl published.
  change (2 <? 2) with false. change (2 =? 2) with true.
  change (12 <? 2) with false. change (12 =? 2) with false.
  destruct (PyStr.compare t2 t3); reflexivity.
Qed.


Lemma quiet_working_set (w : env) (limit hours_back : Z) (tl : datetime) :
  sub_hours (naive (now w 0)) hours_back = Some tl →
  (∀ f, f ∈ rss_feeds → no_entries (feedparser_parse w (feed_url f))) →
  (∀ src, src ∈ web_sources → no_containers (requests_get w (web_url src))) →
  get_ai_news w limit hours_back __init__ =
  if limit <? 1 then (Return (slice_to limit []), tick __init__)
  else
    (Return
       (slice_to limit
          (_score_and_sort
             [ fallback_1 (isoformat (naive (now w 1)));
               fallback_2 (isoformat (naive (now w 2)));
               fallback_3 (isoformat (naive (now w 3))) ])),
     snd (_add_fallback_news w (tick __init__))).
Proof.
  intros Hcut Hfeeds Hpages.
  unfold get_ai_news. rewrite run_bind. unfold datetime_now at 1.
  cbv beta iota. rewrite run_bind. unfold lift at 1. cbv beta.
  change (clock_reads __init__) with 0%nat. rewrite Hcut.
  cbn [or_raise]. cbv iota.
  set (s1 := tick __init__).
  rewrite run_bind.
  assert (Hrss : _collect_from_rss w tl s1 = (Return tt, s1)).
  { apply for_each_unchanged. intros f Hf. apply rss_feed_no_entries, Hfeeds, Hf. }
  rewrite Hrss. rewrite run_bind. unfold get_state at 1. rewrite run_bind.
  assert (Hweb : _collect_from_web w s1 = (Return tt, s1)).
  { apply for_each_unchanged. intros src Hsrc.
    apply web_page_no_containers, Hpages, Hsrc. }
  change (len (collected_news s1)) with 0.
  assert (Hlim : (limit <? 1) = negb (0 <? limit)).
  { destruct (0 <? limit) eqn:E; simpl;
      [apply Z.ltb_ge; apply Z.ltb_lt in E | apply Z.ltb_lt; apply Z.ltb_ge in E];
      lia. }
  rewrite Hlim.
  destruct (0 <? limit) eqn:Hpos; simpl negb; cbv iota.
  - rewrite Hweb. rewrite run_bind. unfold get_state at 1. rewrite run_bind.
    change (len (collected_news s1)) with 0. rewrite Hpos.
    pose proof (add_fallback_news_returns w s1) as Hret.
    pose proof (fallback_on_empty w s1 eq_refl eq_refl) as Hfb.
    destruct (_add_fallback_news w s1) as [o s3]. simpl in Hret, Hfb. subst o.
    rewrite run_bind. unfold get_state. rewrite run_bind. unfold lift.
    unfold _remove_duplicates. rewrite Hfb, fallback_unique. reflexivity.
  - rewrite run_ret. rewrite run_bind. unfold get_state at 1. rewrite run_bind.
    change (len (collected_news s1)) with 0. rewrite Hpos.
    rewrite run_ret. reflexivity.
Qed.


(** C5 (amended).  On a new collector whose cutoff is a datetime, when
    every feed gives no entry and every page gives no container, a call
    with [limit] below 1 returns the empty list, and a call with [limit] at
    least 1 returns, cut to [limit], the three fallback articles with the
    scores 12, 2 and 2: the first article first, then the second and the
    third in the order of the list when the stamp of the third is not above
    the stamp of the second, and the third before the second otherwise. *)
Theorem fallback_only_result (w : env) (limit hours_back : Z) (tl : datetime) :
  sub_hours (naive (now w 0)) hours_back = Some tl →
  (∀ f, f ∈ rss_feeds → no_entries (feedparser_parse w (feed_url f))) →
  (∀ src, src ∈ web_sources → no_containers (requests_get w (web_url src))) →
  fst (get_ai_news w limit hours_back __init__) =
  Return
    (if limit <? 1 then []
     else
       slice_to limit
         (set_score (fallback_1 (isoformat (naive (now w 1)))) 12
          :: (if PyStr.leb (isoformat (naive (now w 3))) (isoformat (naive (now w 2)))
              then [set_score (fallback_2 (isoformat (naive (now w 2)))) 2;
                    set_score (fallback_3 (isoformat (naive (now w 3)))) 2]
              else [set_score (fallback_3 (isoformat (naive (now w 3)))) 2;
                    set_score (fallback_2 (isoformat (naive (now w 2)))) 2]))).
Proof.
  intros Hcut Hfeeds Hpages.
  rewrite (quiet_working_set w limit hours_back tl Hcut Hfeeds Hpages).
  destruct (limit <? 1); cbn [fst].
  - rewrite slice_to_nil. reflexivity.
  - rewrite fallback_ranking. reflexivity.
Qed.


Lemma fallback_only_result_witness :
  fst (get_ai_news Examples.quiet 2 48 __init__) =
  Return [ set_score (fallback_1 (py "2024-05-01T12:00:00.000001")) 12;
           set_score (fallback_3 (py "2024-05-01T12:00:00.000003")) 2 ].
Proof.
  rewrite (fallback_only_result Examples.quiet 2 48
             (naive (at_time 2024 4 29 12 0 0 0))).
  - vm_compute. reflexivity.
  - vm_compute. reflexivity.
  - intros f _. simpl. reflexivity.
  - intros src _. simpl. exact I.
Defined.


(** C5 as stated fails: in [quiet] no source gives a record and the clock
    advances between the readings; the call with [limit = 3] returns the
    first, the third and the second fallback article, in that order, with
    the scores 12, 2 and 2. *)
Lemma fallback_order_counterexample :
  url <$> returned (get_ai_news Examples.quiet 3 48 __init__)
    = [py "https://example.com/ai-future"; py "https://example.com/ai-cases";
       py "https://example.com/ai-ethics"] ∧
  score <$> returned (get_ai_news Examples.quiet 3 48 __init__) = [12; 2; 2] ∧
  returned (get_ai_news Examples.quiet 3 48 __init__)
    ≠ slice_to 3 [fallback_1 (py "2024-05-01T12:00:00.000001");
                  fallback_2 (py "2024-05-01T12:00:00.000002");
                  fallback_3 (py "2024-05-01T12:00:00.000003")].
Proof.
  split; [vm_compute; reflexivity|]. split; [vm_compute; reflexivity|].
  vm_compute. discriminate.
Qed.

(** ** C7: titles of the records that enter the deduplication *)

Lemma contains_in_empty (sub : str) : sub ≠ [] → contains sub [] = false.
Proof. destruct sub; [contradiction | reflexivity]. Qed.

Lemma not_ai_related_empty (w : env) : lower_sane w → _is_ai_related w [] = false.
Proof.
  intros [Hnil Hne]. unfold _is_ai_related. rewrite Hnil.
  apply not_true_is_false. intros H.
  apply existsb_exists in H as (k & Hk & Hc).
  rewrite contains_in_empty in Hc; [discriminate|].
  apply Hne. unfold ai_keywords in Hk.
  repeat (destruct Hk as [<- | Hk]; [discriminate|]). destruct Hk.
Qed.

(** C7 (amended).  Of the records of the working set, those that do not
    come from a feed (the scraped ones and the fallback ones) have a title
    that is not empty: when this holds of the records collected before a
    call, it holds of the working set after the call.  An empty title fails
    the relevance test, and the fallback titles are fixed.  Nothing is said
    of a feed record, which is inserted whatever its title is. *)
Theorem scraped_and_fallback_titles (w : env) (limit hours_back : Z)
    (s : state) :
  lower_sane w →
  Forall titled_unless_fed (collected_news s) →
  Forall titled_unless_fed
    (collected_news (snd (get_ai_news w limit hours_back s))).
Proof.
  intros Hlower Hs. apply Forall_forall. intros a Ha Hsrc.
  apply working_set_origin in Ha as [Ha|(tl & _ & [Hf|[Hw|Hb]])].
  - rewrite Forall_forall in Hs. apply (Hs a Ha Hsrc).
  - destruct Hf as (f & entries & e & stamp & Hf & _ & _ & _ & _ & _ & ->).
    exfalso. apply (Hsrc f Hf). reflexivity.
  - destruct Hw as (src & resp & c & text & _ & _ & _ & _ & _ & _ & Hai & _).
    intros Heq. rewrite Heq, not_ai_related_empty in Hai by exact Hlower.
    discriminate.
  - destruct Hb as (n & [-> | [-> | ->]]); discriminate.
Qed.


Lemma ascii_lower_sane : lower_sane Examples.newsroom.
Proof.
  split; [reflexivity|]. intros s Hs. destruct s; [contradiction | discriminate].
Qed.

Lemma scraped_and_fallback_titles_witness :
  title Examples.scraped_record ≠ [].
Proof.
  pose proof (scraped_and_fallback_titles Examples.newsroom 10 48 __init__
                ascii_lower_sane ltac:(constructor)) as H.
  rewrite Forall_forall in H. apply (H Examples.scraped_record).
  - vm_compute. do 4 right. left.
  - intros f Hf. unfold rss_feeds in Hf.
    repeat (apply elem_of_cons in Hf as [-> | Hf]); try discriminate.
    inversion Hf.
Defined.


(** C7 as stated fails: the third entry of the first feed of [newsroom] has
    no title and a link; the record built from it, with the empty title,
    is in the working set, survives the deduplication and is returned. *)
Lemma untitled_feed_record_counterexample :
  (∃ unique_news,
     _remove_duplicates (snd (get_ai_news Examples.newsroom 10 48 __init__))
     = Return unique_news ∧
     {| title := []; url := py "https://a.example/3"; summary := [];
        source := py "Google News - AI";
        published := py "2024-05-01T12:00:00.000003"; score := 0 |}
       ∈ unique_news) ∧
  {| title := []; url := py "https://a.example/3"; summary := [];
     source := py "Google News - AI";
     published := py "2024-05-01T12:00:00.000003"; score := 7 |}
    ∈ returned (get_ai_news Examples.newsroom 10 48 __init__).
Proof.
  split.
  - eexists. split; [vm_compute; reflexivity|]. do 1 right. left.
  - vm_compute. do 3 right. left.
Qed.


(** ** C8: length of the summaries *)

Lemma sub_tags_length (inside : bool) (text : str) :
  (length (sub_tags inside text) ≤ length text)%nat.
Proof.
  revert inside. induction text as [|c text IH]; intros inside; simpl; [lia|].
  destruct inside.
  - destruct (is_gt c); [specialize (IH false) | specialize (IH true)]; lia.
  - destruct (is_lt c && tag_opens text);
      [specialize (IH true) | specialize (IH false)]; simpl; lia.
Qed.

Lemma sub_spaces_length (in_run : bool) (text : str) :
  (length (sub_spaces in_run text) ≤ length text)%nat.
Proof.
  revert in_run. induction text as [|c text IH]; intros in_run; simpl; [lia|].
  destruct (isspace c).
  - destruct in_run; pose proof (IH true); simpl; lia.
  - pose proof (IH false). simpl. lia.
Qed.

Lemma lstrip_length (s : str) : (length (lstrip s) ≤ length s)%nat.
Proof.
  induction s as [|c s IH]; simpl; [lia|].
  destruct (isspace c); simpl; lia.
Qed.

Lemma strip_length (s : str) : (length (strip s) ≤ length s)%nat.
Proof.
  unfold strip, rstrip. rewrite length_rev.
  pose proof (lstrip_length (rev (lstrip s))) as H1.
  pose proof (lstrip_length s) as H2.
  rewrite length_rev in H1. lia.
Qed.

Lemma replace_char_length (c d : N) (s : str) :
  length (replace [c] [d] s) = length s.
Proof.
  unfold replace. induction s as [|x s IH]; simpl; [reflexivity|].
  destruct (c =? x)%N; simpl; f_equal; exact IH.
Qed.

Lemma clean_text_length (text : str) :
  (length (_clean_text text) ≤ length text)%nat.
Proof.
  unfold _clean_text. rewrite !replace_char_length.
  pose proof (strip_length (sub_spaces false (sub_tags false text))).
  pose proof (sub_spaces_length false (sub_tags false text)).
  pose proof (sub_tags_length false text). lia.
Qed.

Lemma clean_snippet_length (text : str) :
  len (_clean_text (List.firstn 200 text)) ≤ 200.
Proof.
  unfold len. pose proof (clean_text_length (List.firstn 200 text)) as H.
  rewrite length_take in H. lia.
Qed.

(** C8 (amended).  Every feed record, every fallback record and every
    scraped record with a snippet that is not empty after cleaning has a
    summary of at most 200 characters; the summary of any other scraped
    record, built from a container whose snippet is missing or empty after
    cleaning, is its title followed by the fixed suffix of 11 characters,
    and is as long as the title allows.  When this holds of the records
    collected before a call, it holds of the working set after the call. *)
Theorem summary_lengths (w : env) (limit hours_back : Z) (s : state) :
  Forall (summary_bounded w) (collected_news s) →
  Forall (summary_bounded w)
    (collected_news (snd (get_ai_news w limit hours_back s))).
Proof.
  intros Hs. apply Forall_forall. intros a Ha.
  apply working_set_origin in Ha as [Ha|(tl & _ & [Hf|[Hw|Hb]])].
  - rewrite Forall_forall in Hs. apply (Hs a Ha).
  - left. destruct Hf as (f & entries & e & stamp & _ & _ & _ & _ & _ & _ & ->).
    simpl. apply clean_snippet_length.
  - destruct Hw as (src & resp & c & text & Hsrc & Hget & _ & Hc & Htext & Ht
                    & _ & _ & Hname & _ & _ & Hsum).
    assert (Hsyn : summary a = (title a ++ synthesized_suffix)%list →
                   len (summary a) = len (title a) + 11).
    { intros ->. unfold len. rewrite length_app. simpl. lia. }
    destruct (summary_elem c) as [t|] eqn:Hsnippet.
    + destruct (_clean_text (List.firstn 200 t)) as [|x rest] eqn:Hclean;
        cbn [truthy] in Hsum.
      * right. exists src, resp, c, text. rewrite Hsnippet.
        repeat split; try assumption. apply Hsyn, Hsum.
      * left. rewrite Hsum, <- Hclean. apply clean_snippet_length.
    + right. exists src, resp, c, text. rewrite Hsnippet.
      repeat split; try assumption. apply Hsyn, Hsum.
  - left. destruct Hb as (n & [-> | [-> | ->]]); vm_compute; discriminate.
Qed.


Lemma summary_lengths_witness :
  summary_bounded Examples.newsroom
    (article_of_entry Examples.google_news Examples.entry_a
       (py "2024-05-01T12:00:00.000001")) ∧
  summary_bounded Examples.newsroom Examples.scraped_record.
Proof.
  pose proof (summary_lengths Examples.newsroom 10 48 __init__
                ltac:(constructor)) as H.
  rewrite Forall_forall in H. split; apply H.
  - vm_compute. left.
  - vm_compute. do 4 right. left.
Defined.


(** C8 as stated fails: the page of [newsroom] has a container with a title
    of 300 characters and no summary element; the record built from it is
    in the working set with a summary of 311 characters. *)
Lemma long_summary_counterexample :
  Examples.scraped_record
    ∈ collected_news (snd (get_ai_news Examples.newsroom 10 48 __init__)) ∧
  len (title Examples.scraped_record) = 300 ∧
  len (summary Examples.scraped_record) = 311 ∧
  ¬ len (summary Examples.scraped_record) ≤ 200.
Proof.
  split; [vm_compute; do 4 right; left|].
  split; [reflexivity|]. split; [reflexivity|].
  vm_compute. intros H. apply H. reflexivity.
Qed.
